(** * The REST gateway over MCP tool servers: [multi_mcp.py] and [single_mcp.py]

    A shallow embedding of the two gateway variants. Python dictionaries are
    finite maps, module-level globals are an explicit state record, the awaited
    backend calls are functions of a static environment, and every place where
    the source can raise is an explicit result type. *)

From Stdlib Require Import PrimFloat.
From stdpp Require Import base option list strings pretty gmap fin_maps relations.

#[local] Set Warnings "-register-all".
Open Scope string_scope.

(** ** Python values *)

Module Py.

(** JSON-compatible Python values: what query parameters are coerced to, what
    [json.loads] returns and what a handler sends back. A [dict] literal keeps
    its key order, so it is a list of pairs. *)
Inductive value : Type :=
| VNone
| VBool (b : bool)
| VInt (z : Z)
| VFloat (f : float)
| VStr (s : string)
| VList (l : list value)
| VDict (d : list (string * value)).

(** [v is None] *)
Definition is_none (v : value) : bool :=
  match v with VNone => true | _ => false end.

(** Truth value testing, [bool(v)]. *)
Definition truthy (v : value) : bool :=
  match v with
  | VNone => false
  | VBool b => b
  | VInt z => negb (Z.eqb z 0)
  | VFloat f => negb (PrimFloat.eqb f 0%float)
  | VStr s => negb (String.eqb s "")
  | VList l => match l with [] => false | _ => true end
  | VDict d => match d with [] => false | _ => true end
  end.

(** An arbitrary object, by what the gateway observes of it: its [text]
    attribute when [hasattr(o, "text")], what [str(o)], [repr(o)] and [bool(o)]
    give. *)
Record object : Type := {
  attr_text : option value;
  py_str : string;
  py_repr : string;
  py_bool : bool
}.

(** [", ".join(parts)] *)
Fixpoint join (sep : string) (parts : list string) : string :=
  match parts with
  | [] => ""
  | [p] => p
  | p :: rest => p ++ sep ++ join sep rest
  end.

(** [str] of a list prints the [repr] of its elements between brackets. *)
Definition str_list (items : list object) : string :=
  "[" ++ join ", " (map py_repr items) ++ "]".

End Py.

Import Py.

(** The wrapper [{"result": v}] both variants build. *)
Definition result_of (v : value) : value := VDict [("result", v)].

(** [needle in haystack] on strings. *)
Fixpoint contains (needle haystack : string) : bool :=
  String.prefix needle haystack ||
  match haystack with
  | EmptyString => false
  | String _ rest => contains needle rest
  end.

(** ** The MCP client library, as the gateway sees it *)

Module Mcp.

(** [result.content]: a list of content blocks, or any other object. *)
Inductive content_value : Type :=
| ContentList (items : list object)
| ContentObject (o : object).

(** [bool(result.content)] *)
Definition content_truthy (c : content_value) : bool :=
  match c with
  | ContentList items => match items with [] => false | _ => true end
  | ContentObject o => py_bool o
  end.

(** [str(result.content)] *)
Definition content_str (c : content_value) : string :=
  match c with
  | ContentList items => str_list items
  | ContentObject o => py_str o
  end.

(** What [await client.call_tool(...)] returns. The gateway probes each
    attribute with [hasattr]: [None] stands for an attribute the object does
    not have, [Some VNone] for one that is there and holds [None]. *)
Record call_result : Type := {
  structured_content : option value;
  data : option value;
  content : option content_value
}.

(** A backend call returns a result or raises; [Raises e] carries [str(e)]. *)
Inductive outcome : Type :=
| Returns (result : call_result)
| Raises (e : string).

(** One entry of [inputSchema["properties"]]; an absent key is [None]. *)
Record property_schema : Type := {
  p_type : option string;
  p_description : option string;
  p_title : option string
}.

(** A tool's [inputSchema] (or [outputSchema]): an absent ["properties"] is the
    empty map and an absent ["required"] the empty list, which is what the
    [.get] defaults of the source turn them into. *)
Record schema : Type := {
  properties : gmap string property_schema;
  required : list string
}.

(** A tool of the discovery response. Reading [tool.name] of a tool whose
    identity is absent raises; the other attributes are always there and may
    hold [None]. *)
Record tool : Type := {
  name : option string;
  title : option string;
  description : option string;
  inputSchema : schema;
  outputSchema : option schema
}.

(** A [fastmcp.Client] object: whether [__aenter__] returns, what
    [list_tools_mcp] answers ([None] when it raises) and what [call_tool]
    does with a tool name and an argument map. *)
Record client : Type := {
  aenter : bool;
  list_tools_mcp : option (list tool);
  client_call_tool : string -> gmap string value -> outcome
}.

End Mcp.

(** ** The HTTP framework, as the gateway uses it *)

Module Http.

(** The Python types a query parameter is annotated with. *)
Inductive py_type : Type := Str | Int | Float | Bool.

(** The first argument of [Query(...)]: [...] marks the parameter required,
    [None] is the default of an optional one. *)
Inductive query_default : Type := Ellipsis | DefaultNone.

(** One [inspect.Parameter] of a handler's synthesized signature. *)
Record parameter : Type := {
  annotation : py_type;
  nullable : bool;
  default_value : query_default;
  query_description : string;
  query_title : string
}.

(** A validation failure of one query parameter. *)
Inductive param_error : Type :=
| Missing (name : string)
| Invalid (name : string).

(** What a client receives: a JSON body with status 200, an [HTTPException]
    with its status code and detail, or the framework's request-validation
    error (status 422) listing every offending parameter. *)
Inductive response : Type :=
| Ok (body : value)
| HTTPException (status_code : Z) (detail : string)
| RequestValidationError (errors : list param_error).

(** A route registered with [app.get]; ['closure] is what the endpoint
    function captured when it was created. *)
Record route (closure : Type) : Type := {
  path : string;
  summary : option string;
  route_description : option string;
  tags : list string;
  signature : gmap string parameter;
  endpoint : closure
}.

Arguments path {closure} _.
Arguments summary {closure} _.
Arguments route_description {closure} _.
Arguments tags {closure} _.
Arguments signature {closure} _.
Arguments endpoint {closure} _.

End Http.

Import Http.

(** ** What the gateway takes from outside

    [json.loads] on a string ([None] when it raises), [Client(url)] ([None]
    when the constructor raises), whether [inspect.Parameter] accepts a name
    (an identifier that is no keyword), and the framework's coercion of a raw
    query string to the annotated type ([None] when it is rejected). *)
Class Env : Type := {
  json_loads : string -> option value;
  new_client : string -> option Mcp.client;
  valid_parameter_name : string -> bool;
  coerce_query : py_type -> string -> option value
}.

(** [json.loads(v)]: anything that is not a string raises [TypeError]. *)
Definition loads `{Env} (v : value) : option value :=
  match v with
  | VStr s => json_loads s
  | _ => None
  end.

(** The dictionary both variants cache for a discovered tool: the keys
    ["name"], ["title"], ["description"], ["inputSchema"], ["outputSchema"]. *)
Record tool_data : Type := {
  td_name : string;
  td_title : option string;
  td_description : option string;
  td_inputSchema : Mcp.schema;
  td_outputSchema : option Mcp.schema
}.

(** An entry of [param_info] in [create_dynamic_endpoint]. *)
Record param_info : Type := {
  info_type : py_type;
  info_description : string;
  info_title : string;
  info_required : bool
}.

(** The parameter a [param_info] entry becomes in the signature:
    [annotation = type if required else Optional[type]] and
    [default = Query(... if required else None, description, title)]. *)
Definition parameter_of (info : param_info) : parameter :=
  {| annotation := info_type info;
     nullable := negb (info_required info);
     default_value := if info_required info then Ellipsis else DefaultNone;
     query_description := info_description info;
     query_title := info_title info |}.

(** One tool of a root listing. *)
Record tool_entry : Type := {
  entry_name : string;
  entry_title : option string;
  entry_description : option string;
  entry_endpoint : string;
  entry_parameters : list string
}.

Section Binding.
Context `{Env}.

(** Modelled from the spec: the framework's reading of one declared query
    parameter (it lives in the HTTP framework, not under src/). A value that is
    there is coerced to the declared type or rejected; one that is not there is
    an error for a required parameter and the default [None] for an optional
    one (spec 4.4, steps 1 and 2; 6, synthesized REST surface). *)
Definition bind_parameter (query : gmap string string) (name : string)
    (p : parameter) : param_error + value :=
  match query !! name with
  | Some raw =>
      match coerce_query (annotation p) raw with
      | Some v => inr v
      | None => inl (Invalid name)
      end
  | None =>
      match default_value p with
      | Ellipsis => inl (Missing name)
      | DefaultNone => inr VNone
      end
  end.

(** The errors of a request against a signature, one per offending parameter. *)
Definition bind_errors (sig : gmap string parameter) (query : gmap string string)
    : list param_error :=
  omap (fun np => match bind_parameter query np.1 np.2 with
                  | inl e => Some e
                  | inr _ => None
                  end) (map_to_list sig).

(** The keyword arguments the handler is called with: one per declared
    parameter. *)
Definition bind_kwargs (sig : gmap string parameter) (query : gmap string string)
    : gmap string value :=
  map_imap (fun name p => match bind_parameter query name p with
                          | inr v => Some v
                          | inl _ => None
                          end) sig.

(** Modelled from the spec: a request served through a bound route (the
    framework's dispatch, not under src/). The handler runs only when every
    declared parameter binds; otherwise the request is answered with the
    validation errors and the handler is not called. The second component is
    the trace of backend invocations the request caused. *)
Definition dispatch {A : Type} (sig : gmap string parameter)
    (query : gmap string string)
    (handler : gmap string value -> response * list A) : response * list A :=
  match bind_errors sig query with
  | [] => handler (bind_kwargs sig query)
  | errors => (RequestValidationError errors, [])
  end.

End Binding.

(** ** Closing connections and writing workbooks

    Whether [client.__aexit__(None, None, None)] returns ([false] when it
    raises). *)
Class Teardown : Type := {
  aexit : Mcp.client -> bool
}.

(** One row of the sheet [export_tools] builds: the keys ["name"], ["title"],
    ["description"], ["endpoint"], ["parameters"], ["output_schema"]. *)
Record export_row : Type := {
  row_name : string;
  row_title : option string;
  row_description : option string;
  row_endpoint : string;
  row_parameters : string;
  row_output_schema : string
}.

(** What [pandas] and [openpyxl] make of the rows: the bytes of the workbook,
    [None] when building or writing it raises. *)
Class Spreadsheet : Type := {
  to_excel : list export_row -> option string
}.

(** What a connection goes through inside one call. *)
Inductive connection_event : Type :=
| Enter (c : Mcp.client)
| Exit (c : Mcp.client).

(** ** [multi_mcp.py] *)

Module Multi.

Record server : Type := { server_name : string; server_url : string }.

Definition MCP_SERVERS : list server :=
  [ {| server_name := "calculator tools"; server_url := "http://127.0.0.1:8002/mcp2" |};
    {| server_name := "test tools"; server_url := "http://127.0.0.1:8001/mcp1" |} ].

(** What [tool_endpoint] captures: [tool_name] and [server_name]. *)
Definition closure : Type := string * string.

(** The module globals [clients] and [tools_cache], and the routes registered
    on [app] by [create_dynamic_endpoint]. *)
Record state : Type := {
  clients : gmap string Mcp.client;
  tools_cache : gmap string (gmap string tool_data);
  routes : list (route closure)
}.

Definition initial : state :=
  {| clients := ∅; tools_cache := ∅; routes := [] |}.

(** A call that reached a backend: the source, the tool name, the arguments. *)
Definition invocation : Type := string * string * gmap string value.

Definition mapping : gmap string py_type :=
  <["string" := Str]> (<["integer" := Int]> (<["number" := Float]> (<["boolean" := Bool]> ∅))).

Definition get_python_type (json_type : string) : py_type :=
  default Str (mapping !! json_type).

Section WithEnv.
Context `{Env}.

(** The body of [call_tool]'s [try] block after the awaited call: the shapes
    of a result, in the order the source probes them. *)
Definition normalize (result : Mcp.call_result) : value :=
  let from_content :=
    match Mcp.content result with
    | Some c =>
        if Mcp.content_truthy c then
          match c with
          | Mcp.ContentList (first :: _) =>
              match attr_text first with
              | Some text =>
                  match loads text with
                  | Some parsed => parsed
                  | None => result_of text
                  end
              | None => result_of (VStr (Mcp.content_str c))
              end
          | _ => result_of (VStr (Mcp.content_str c))
          end
        else result_of (VStr "Success")
    | None => result_of (VStr "Success")
    end in
  let from_data :=
    match Mcp.data result with
    | Some d => if is_none d then from_content else result_of d
    | None => from_content
    end in
  match Mcp.structured_content result with
  | Some sc => if truthy sc then sc else from_data
  | None => from_data
  end.

(** [{k: v for k, v in params.items() if v is not None}] *)
Definition drop_none (params : gmap string value) : gmap string value :=
  filter (fun kv => is_none kv.2 = false) params.

Definition call_tool (st : state) (tool_name : string)
    (params : gmap string value) (server_name : string)
    : response * list invocation :=
  match clients st !! server_name with
  | None => (HTTPException 503 (server_name ++ " MCP 서버 연결 불가"), [])
  | Some client =>
      let params := drop_none params in
      (match Mcp.client_call_tool client tool_name params with
       | Mcp.Returns result => Ok (normalize result)
       | Mcp.Raises e => HTTPException 500 (tool_name ++ " 실행 오류: " ++ e)
       end,
       [(server_name, tool_name, params)])
  end.

(** [tool_endpoint], the closure of [create_dynamic_endpoint]; it takes its
    keyword arguments as one map. *)
Definition tool_endpoint (c : closure) (st : state) (kwargs : gmap string value)
    : response * list invocation :=
  call_tool st c.1 kwargs c.2.

(** [param_info] of [create_dynamic_endpoint]. *)
Definition build_param_info (input_schema : Mcp.schema) : gmap string param_info :=
  map_imap (fun name sch =>
    Some {| info_type := get_python_type (default "string" (Mcp.p_type sch));
            info_description := default (name ++ " parameter") (Mcp.p_description sch);
            info_title := default name (Mcp.p_title sch);
            info_required := bool_decide (name ∈ Mcp.required input_schema) |})
    (Mcp.properties input_schema).

(** [create_signature]: [inspect.Parameter] raises on a name it does not
    accept, and then so does [create_dynamic_endpoint]. *)
Definition create_signature (info : gmap string param_info)
    : option (gmap string parameter) :=
  if forallb (fun np => valid_parameter_name np.1) (map_to_list info)
  then Some (parameter_of <$> info)
  else None.

(** The route [create_dynamic_endpoint] registers, [None] when it raises. *)
Definition create_dynamic_endpoint (tool_name : string) (td : tool_data)
    (server_name : string) : option (route closure) :=
  match create_signature (build_param_info (td_inputSchema td)) with
  | Some sig =>
      Some {| path := "/" ++ tool_name;
              summary := td_title td;
              route_description := td_description td;
              tags := [server_name];
              signature := sig;
              endpoint := (tool_name, server_name) |}
  | None => None
  end.

(** The inner [for tool in tools_response.tools] loop. An exception anywhere
    in its body leaves the loop and is caught by the [except Exception:
    continue] of the enclosing [try], so the loop's result is the state it had
    reached. *)
Fixpoint load_tools (name : string) (tools : list Mcp.tool) (st : state) : state :=
  match tools with
  | [] => st
  | tool :: rest =>
      match Mcp.name tool with
      | None => st
      | Some tool_name =>
          let td := {| td_name := tool_name;
                       td_title := Mcp.title tool;
                       td_description := Mcp.description tool;
                       td_inputSchema := Mcp.inputSchema tool;
                       td_outputSchema := Mcp.outputSchema tool |} in
          match tools_cache st !! name with
          | None => st
          | Some cache =>
              let st1 := {| clients := clients st;
                            tools_cache := <[name := <[tool_name := td]> cache]> (tools_cache st);
                            routes := routes st |} in
              match create_dynamic_endpoint tool_name td name with
              | None => st1
              | Some r =>
                  load_tools name rest
                    {| clients := clients st1;
                       tools_cache := tools_cache st1;
                       routes := routes st1 ++ [r] |}
              end
          end
      end
  end.

(** One iteration of [for server in MCP_SERVERS]. *)
Definition load_server (st : state) (s : server) : state :=
  match new_client (server_url s) with
  | None => st
  | Some client =>
      if Mcp.aenter client then
        let st1 := {| clients := <[server_name s := client]> (clients st);
                      tools_cache := tools_cache st;
                      routes := routes st |} in
        match Mcp.list_tools_mcp client with
        | None => st1
        | Some tools =>
            load_tools (server_name s) tools
              {| clients := clients st1;
                 tools_cache := <[server_name s := ∅]> (tools_cache st1);
                 routes := routes st1 |}
        end
      else st
  end.

(** The [for] loop of [startup_event] over a list of configured servers. *)
Definition load_servers (servers : list server) (st : state) : state :=
  foldl load_server st servers.

Definition startup_event (st : state) : state := load_servers MCP_SERVERS st.

(** *** [startup_event], one statement at a time

    The same code as a transition system: where the control is, and what the
    globals are. An exception raised inside the [try] moves the control to the
    next server without touching the globals. *)
Inductive control : Type :=
| AtServers (servers : list server)
| AtListing (name : string) (client : Mcp.client) (rest : list server)
| AtTools (name : string) (tools : list Mcp.tool) (rest : list server)
| AtBinding (name : string) (tool_name : string) (td : tool_data)
    (tools : list Mcp.tool) (rest : list server)
| Finished.

Definition step (c : state * control) : option (state * control) :=
  let st := c.1 in
  match c.2 with
  | Finished => None
  | AtServers [] => Some (st, Finished)
  | AtServers (s :: rest) =>
      match new_client (server_url s) with
      | None => Some (st, AtServers rest)
      | Some client =>
          if Mcp.aenter client then
            Some ({| clients := <[server_name s := client]> (clients st);
                     tools_cache := tools_cache st;
                     routes := routes st |},
                  AtListing (server_name s) client rest)
          else Some (st, AtServers rest)
      end
  | AtListing name client rest =>
      match Mcp.list_tools_mcp client with
      | None => Some (st, AtServers rest)
      | Some tools =>
          Some ({| clients := clients st;
                   tools_cache := <[name := ∅]> (tools_cache st);
                   routes := routes st |},
                AtTools name tools rest)
      end
  | AtTools name [] rest => Some (st, AtServers rest)
  | AtTools name (tool :: tools) rest =>
      match Mcp.name tool with
      | None => Some (st, AtServers rest)
      | Some tool_name =>
          let td := {| td_name := tool_name;
                       td_title := Mcp.title tool;
                       td_description := Mcp.description tool;
                       td_inputSchema := Mcp.inputSchema tool;
                       td_outputSchema := Mcp.outputSchema tool |} in
          match tools_cache st !! name with
          | None => Some (st, AtServers rest)
          | Some cache =>
              Some ({| clients := clients st;
                       tools_cache := <[name := <[tool_name := td]> cache]> (tools_cache st);
                       routes := routes st |},
                    AtBinding name tool_name td tools rest)
          end
      end
  | AtBinding name tool_name td tools rest =>
      match create_dynamic_endpoint tool_name td name with
      | None => Some (st, AtServers rest)
      | Some r =>
          Some ({| clients := clients st;
                   tools_cache := tools_cache st;
                   routes := routes st ++ [r] |},
                AtTools name tools rest)
      end
  end.

Definition steps_to (c c' : state * control) : Prop := step c = Some c'.

(** The states the startup of [servers] passes through, from the globals as
    the module defines them. *)
Definition reachable (servers : list server) (c : state * control) : Prop :=
  rtc steps_to (initial, AtServers servers) c.

(** *** Serving requests *)

(** The route a [GET path] request is matched to: the first one registered. *)
Definition find_route (st : state) (p : string) : option (route closure) :=
  find (fun r => String.eqb (path r) p) (routes st).

(** A request served through a bound route. *)
Definition serve (st : state) (r : route closure) (query : gmap string string)
    : response * list invocation :=
  dispatch (signature r) query (tool_endpoint (endpoint r) st).

End WithEnv.

(** An entry of the root listing: a source and its tools. *)
Record server_entry : Type := {
  entry_server : string;
  entry_tools : list tool_entry;
  entry_total : nat
}.

Definition list_tool (nt : string * tool_data) : tool_entry :=
  {| entry_name := nt.1;
     entry_title := td_title nt.2;
     entry_description := td_description nt.2;
     entry_endpoint := "/" ++ nt.1;
     entry_parameters := (map_to_list (Mcp.properties (td_inputSchema nt.2))).*1 |}.

(** [root]: the value under ["available_servers"]. The entries come in the
    order of the map's keys; the insertion order of the dictionaries is not
    modelled. *)
Definition root (st : state) : list server_entry :=
  (fun server_tools =>
     let listed := list_tool <$> map_to_list server_tools.2 in
     {| entry_server := server_tools.1;
        entry_tools := listed;
        entry_total := length listed |}) <$> map_to_list (tools_cache st).

(** [shutdown_event]: every client of [clients] is asked to exit, and an
    exception is swallowed by the bare [except]. The result is the trace of
    the exits with whether each returned; the globals are left as they are. *)
Definition shutdown_event `{Teardown} (st : state) : list (Mcp.client * bool) :=
  (fun nc => (nc.2, aexit nc.2)) <$> map_to_list (clients st).

(** The body of the loop of [export_tools] for one tool; reading the name of
    a tool without identity raises. *)
Definition export_row_of (tool : Mcp.tool) : option export_row :=
  match Mcp.name tool with
  | None => None
  | Some tool_name =>
      let input_params := (map_to_list (Mcp.properties (Mcp.inputSchema tool))).*1 in
      let output_keys :=
        match Mcp.outputSchema tool with
        | Some sch => (map_to_list (Mcp.properties sch)).*1
        | None => []
        end in
      Some {| row_name := tool_name;
              row_title := Mcp.title tool;
              row_description := Mcp.description tool;
              row_endpoint := "/" ++ tool_name;
              row_parameters := join ", " input_params;
              row_output_schema := join ", " output_keys |}
  end.

(** The rows for a discovery response, [None] when a tool raises. *)
Definition export_rows (tools : list Mcp.tool) : option (list export_row) :=
  mapM export_row_of tools.

(** [export_tools]: the workbook that is streamed back, [None] when an
    exception leaves the handler, and what the connection went through. The
    connection is made and entered before the [try]; its [finally] exits it,
    and an exception raised by that exit replaces the result. *)
Definition export_tools `{Env} `{Teardown} `{Spreadsheet} (url : string)
    : option string * list connection_event :=
  match new_client url with
  | None => (None, [])
  | Some client =>
      if Mcp.aenter client then
        let result :=
          match Mcp.list_tools_mcp client with
          | None => None
          | Some tools =>
              match export_rows tools with
              | None => None
              | Some rows => to_excel rows
              end
          end in
        (if aexit client then result else None, [Enter client; Exit client])
      else (None, [Enter client])
  end.

End Multi.

(** ** [single_mcp.py] *)

Module Single.

Definition MCP_URL : string := "http://127.0.0.1:8002/mcp2".

(** What [tool_endpoint] captures: [tool_name]. *)
Definition closure : Type := string.

(** The module globals [client] and [tools_cache], and the routes registered
    on [app]. *)
Record state : Type := {
  client : option Mcp.client;
  tools_cache : gmap string tool_data;
  routes : list (route closure)
}.

Definition initial : state :=
  {| client := None; tools_cache := ∅; routes := [] |}.

(** A call that reached the backend: the tool name and the arguments. *)
Definition invocation : Type := string * gmap string value.

Definition mapping : gmap string py_type :=
  <["string" := Str]> (<["integer" := Int]> (<["number" := Float]> (<["boolean" := Bool]> ∅))).

Definition get_python_type (json_type : string) : py_type :=
  default Str (mapping !! json_type).

Section WithEnv.
Context `{Env}.

(** The [try: return json.loads(content.text)] with its bare [except], which
    answers [getattr(content, 'text', str(content))] wrapped as a result. *)
Definition parse_content (item : object) : value :=
  match attr_text item with
  | Some text =>
      match loads text with
      | Some parsed => parsed
      | None => result_of text
      end
  | None => result_of (VStr (py_str item))
  end.

(** The [if]/[elif] chain of [call_tool] after the awaited call. *)
Definition normalize (result : Mcp.call_result) : value :=
  let from_content :=
    match Mcp.content result with
    | Some c =>
        if Mcp.content_truthy c then
          match c with
          | Mcp.ContentList (first :: _) => parse_content first
          | Mcp.ContentList [] => result_of (VStr "Success")
          | Mcp.ContentObject o => parse_content o
          end
        else result_of (VStr "Success")
    | None => result_of (VStr "Success")
    end in
  let from_data :=
    match Mcp.data result with
    | Some d => if is_none d then from_content else result_of d
    | None => from_content
    end in
  match Mcp.structured_content result with
  | Some sc => if truthy sc then sc else from_data
  | None => from_data
  end.

(** [{k: v for k, v in params.items() if v is not None}] *)
Definition drop_none (params : gmap string value) : gmap string value :=
  filter (fun kv => is_none kv.2 = false) params.

(** [call_tool]. With the global [client] still [None], the attribute access
    [client.call_tool] raises inside the [try]. *)
Definition call_tool (st : state) (tool_name : string)
    (params : gmap string value) : response * list invocation :=
  let params := drop_none params in
  match client st with
  | None =>
      (HTTPException 500
         ("도구 실행 중 오류: " ++ "'NoneType' object has no attribute 'call_tool'"),
       [])
  | Some c =>
      (match Mcp.client_call_tool c tool_name params with
       | Mcp.Returns result => Ok (normalize result)
       | Mcp.Raises e => HTTPException 500 ("도구 실행 중 오류: " ++ e)
       end,
       [(tool_name, params)])
  end.

Definition tool_endpoint (c : closure) (st : state) (kwargs : gmap string value)
    : response * list invocation :=
  call_tool st c kwargs.

Definition build_param_info (input_schema : Mcp.schema) : gmap string param_info :=
  map_imap (fun name sch =>
    Some {| info_type := get_python_type (default "string" (Mcp.p_type sch));
            info_description := default name (Mcp.p_description sch);
            info_title := default name (Mcp.p_title sch);
            info_required := bool_decide (name ∈ Mcp.required input_schema) |})
    (Mcp.properties input_schema).

(** The signature loop: [inspect.Parameter] raises on a name it does not
    accept. *)
Definition create_signature (info : gmap string param_info)
    : option (gmap string parameter) :=
  if forallb (fun np => valid_parameter_name np.1) (map_to_list info)
  then Some (parameter_of <$> info)
  else None.

(** [tool_data.get("title") or tool_name] *)
Definition title_or (title : option string) (tool_name : string) : string :=
  match title with
  | Some t => if String.eqb t "" then tool_name else t
  | None => tool_name
  end.

(** The route [create_dynamic_endpoint] registers, [None] when it raises. *)
Definition create_dynamic_endpoint (tool_name : string) (td : tool_data)
    : option (route closure) :=
  match create_signature (build_param_info (td_inputSchema td)) with
  | Some sig =>
      Some {| path := "/" ++ tool_name;
              summary := Some (title_or (td_title td) tool_name);
              route_description := td_description td;
              tags := ["FastMCP Tools"];
              signature := sig;
              endpoint := tool_name |}
  | None => None
  end.

(** The [for tool in tools_response.tools] loop; an exception in its body is
    caught by the [except] of [startup_event], which only logs it. *)
Fixpoint load_tools (tools : list Mcp.tool) (st : state) : state :=
  match tools with
  | [] => st
  | tool :: rest =>
      match Mcp.name tool with
      | None => st
      | Some tool_name =>
          let td := {| td_name := tool_name;
                       td_title := Mcp.title tool;
                       td_description := Mcp.description tool;
                       td_inputSchema := Mcp.inputSchema tool;
                       td_outputSchema := Mcp.outputSchema tool |} in
          let st1 := {| client := client st;
                        tools_cache := <[tool_name := td]> (tools_cache st);
                        routes := routes st |} in
          match create_dynamic_endpoint tool_name td with
          | None => st1
          | Some r =>
              load_tools rest
                {| client := client st1;
                   tools_cache := tools_cache st1;
                   routes := routes st1 ++ [r] |}
          end
      end
  end.

(** [startup_event]: the global [client] is assigned as soon as the
    constructor returns, before the connection is entered. *)
Definition startup_event (st : state) : state :=
  match new_client MCP_URL with
  | None => st
  | Some c =>
      let st1 := {| client := Some c;
                    tools_cache := tools_cache st;
                    routes := routes st |} in
      if Mcp.aenter c then
        match Mcp.list_tools_mcp c with
        | None => st1
        | Some tools => load_tools tools st1
        end
      else st1
  end.

Definition find_route (st : state) (p : string) : option (route closure) :=
  find (fun r => String.eqb (path r) p) (routes st).

(** A request served through a bound route. *)
Definition serve (st : state) (r : route closure) (query : gmap string string)
    : response * list invocation :=
  dispatch (signature r) query (tool_endpoint (endpoint r) st).

End WithEnv.

(** The dictionary [root] returns. *)
Record listing : Type := {
  service : string;
  mcp_server : string;
  available_tools : list tool_entry;
  total : nat;
  swagger_ui : string
}.

Definition list_tool (nt : string * tool_data) : tool_entry :=
  {| entry_name := nt.1;
     entry_title := td_title nt.2;
     entry_description := td_description nt.2;
     entry_endpoint := "GET /" ++ nt.1;
     entry_parameters := (map_to_list (Mcp.properties (td_inputSchema nt.2))).*1 |}.

Definition root (st : state) : listing :=
  let tool_list := list_tool <$> map_to_list (tools_cache st) in
  {| service := "Dynamic FastMCP Tools API";
     mcp_server := MCP_URL;
     available_tools := tool_list;
     total := length tool_list;
     swagger_ui := "/docs" |}.

(** [shutdown_event]: [if client:] and then the exit inside [try], with the
    bare [except]. The result is the trace of the exits with whether each
    returned. *)
Definition shutdown_event `{Teardown} (st : state) : list (Mcp.client * bool) :=
  match client st with
  | Some c => [(c, aexit c)]
  | None => []
  end.

End Single.

(** * Statements

    The predicates the properties below are stated with. *)

(** The four primitive tags of a schema. *)
Definition known_tag (t : string) : Prop :=
  t = "string" \/ t = "integer" \/ t = "number" \/ t = "boolean".

(** A type mapper sends the four tags to their scalar types and every other
    string to [str]. *)
Definition maps_tags (f : string -> py_type) : Prop :=
  f "string" = Str /\ f "integer" = Int /\ f "number" = Float /\ f "boolean" = Bool /\
  forall t : string, ~ known_tag t -> f t = Str.

(** The tests of the fallback chain, on a result. *)
Definition has_structured (r : Mcp.call_result) (sc : value) : Prop :=
  Mcp.structured_content r = Some sc /\ truthy sc = true.

Definition no_structured (r : Mcp.call_result) : Prop :=
  forall sc, Mcp.structured_content r = Some sc -> truthy sc = false.

Definition has_data (r : Mcp.call_result) (d : value) : Prop :=
  Mcp.data r = Some d /\ d <> VNone.

Definition no_data (r : Mcp.call_result) : Prop :=
  forall d, Mcp.data r = Some d -> d = VNone.

Definition first_text (r : Mcp.call_result) (text : value) : Prop :=
  exists first rest,
    Mcp.content r = Some (Mcp.ContentList (first :: rest)) /\ attr_text first = Some text.

Definition no_content (r : Mcp.call_result) : Prop :=
  forall c, Mcp.content r = Some c -> Mcp.content_truthy c = false.

(** A normalizer honors the precedence chain: structured content first, then
    data, then the text of the first content element (parsed, or kept raw when
    it does not parse), and the success sentinel when there is no payload. *)
Definition honors_precedence `{Env} (normalize : Mcp.call_result -> value) : Prop :=
  forall r : Mcp.call_result,
    (forall sc, has_structured r sc -> normalize r = sc) /\
    (no_structured r -> forall d, has_data r d -> normalize r = result_of d) /\
    (no_structured r -> no_data r -> forall text, first_text r text ->
       normalize r = match loads text with
                     | Some parsed => parsed
                     | None => result_of text
                     end) /\
    (no_structured r -> no_data r -> no_content r ->
       normalize r = result_of (VStr "Success")).

(** The contents on which the two variants take the same branch: an empty
    list, a list whose first element carries text, an object that is falsy or
    carries no text. *)
Definition content_alike (c : Mcp.content_value) : Prop :=
  match c with
  | Mcp.ContentList [] => True
  | Mcp.ContentList (first :: _) => is_Some (attr_text first)
  | Mcp.ContentObject o => py_bool o = true -> attr_text o = None
  end.

Definition decided_alike (r : Mcp.call_result) : Prop :=
  (exists sc, has_structured r sc) \/ (exists d, has_data r d) \/
  (forall c, Mcp.content r = Some c -> content_alike c).

(** The connection attempt of the multi-backend startup fails for a URL:
    [Client(url)] raises, or [__aenter__] does. *)
Definition connection_fails `{Env} (url : string) : Prop :=
  match new_client url with
  | None => True
  | Some c => Mcp.aenter c = false
  end.

(** * Sample backends

    Concrete environments the statements are instantiated at: the calculator
    server of [tool/calculator_tool.py] (its tools [add], [subtract],
    [multiply] and [greet]) behind the URLs the gateway is configured with. *)

Module Demo.

(** The double-quote character. *)
Definition dq : string := String (Ascii.ascii_of_nat 34) "".

(** [json.loads] on the texts the examples use; every other text is taken
    not to parse. *)
Definition sample_loads (s : string) : option value :=
  if String.eqb s ("{" ++ dq ++ "y" ++ dq ++ ":2}") then Some (VDict [("y", VInt 2)])
  else if String.eqb s "5" then Some (VInt 5)
  else None.

(** Query coercion on the texts the examples use: strings pass, ["2"] and
    ["3"] are integers. *)
Definition sample_coerce (t : py_type) (raw : string) : option value :=
  match t with
  | Str => Some (VStr raw)
  | Int => if String.eqb raw "2" then Some (VInt 2)
           else if String.eqb raw "3" then Some (VInt 3)
           else None
  | _ => None
  end.

Definition text_content (text : string) : object :=
  {| attr_text := Some (VStr text);
     py_str := "type='text' text='" ++ text ++ "'";
     py_repr := "TextContent(type='text', text='" ++ text ++ "')";
     py_bool := true |}.

(** A content block without a [text] attribute. *)
Definition image_content : object :=
  {| attr_text := None;
     py_str := "type='image' mimeType='image/png'";
     py_repr := "ImageContent(type='image', mimeType='image/png')";
     py_bool := true |}.

(** What the backend answers for a tool that returns [v]. *)
Definition answer (v : value) (text : string) : Mcp.outcome :=
  Mcp.Returns {| Mcp.structured_content := Some (result_of v);
                 Mcp.data := Some v;
                 Mcp.content := Some (Mcp.ContentList [text_content text]) |}.

Definition int_arg (args : gmap string value) (k : string) : option Z :=
  match args !! k with
  | Some (VInt z) => Some z
  | _ => None
  end.

Definition binary (op : Z -> Z -> Z) (args : gmap string value) : Mcp.outcome :=
  match int_arg args "a", int_arg args "b" with
  | Some a, Some b => answer (VInt (op a b)) (pretty (op a b))
  | _, _ => Mcp.Raises "Input validation error"
  end.

Definition calculator (tool_name : string) (args : gmap string value) : Mcp.outcome :=
  if String.eqb tool_name "add" then binary Z.add args
  else if String.eqb tool_name "subtract" then binary Z.sub args
  else if String.eqb tool_name "multiply" then binary Z.mul args
  else if String.eqb tool_name "greet" then
    match args !! "name" with
    | Some (VStr n) => answer (VStr ("Hello, " ++ n ++ "!")) ("Hello, " ++ n ++ "!")
    | _ => Mcp.Raises "Input validation error"
    end
  else Mcp.Raises ("Unknown tool: " ++ tool_name).

Definition integer_property (t : string) : Mcp.property_schema :=
  {| Mcp.p_type := Some "integer"; Mcp.p_description := None; Mcp.p_title := Some t |}.

Definition binary_tool (n doc : string) : Mcp.tool :=
  {| Mcp.name := Some n;
     Mcp.title := None;
     Mcp.description := Some doc;
     Mcp.inputSchema :=
       {| Mcp.properties := <["a" := integer_property "A"]> (<["b" := integer_property "B"]> ∅);
          Mcp.required := ["a"; "b"] |};
     Mcp.outputSchema := None |}.

Definition greet_tool : Mcp.tool :=
  {| Mcp.name := Some "greet";
     Mcp.title := None;
     Mcp.description := Some "Return a greeting message";
     Mcp.inputSchema :=
       {| Mcp.properties :=
            <["name" := {| Mcp.p_type := Some "string"; Mcp.p_description := None;
                           Mcp.p_title := Some "Name" |}]> ∅;
          Mcp.required := ["name"] |};
     Mcp.outputSchema := None |}.

(** A tool whose identity is absent. *)
Definition nameless_tool : Mcp.tool :=
  {| Mcp.name := None;
     Mcp.title := None;
     Mcp.description := None;
     Mcp.inputSchema := {| Mcp.properties := ∅; Mcp.required := [] |};
     Mcp.outputSchema := None |}.

Definition add_tool : Mcp.tool := binary_tool "add" "Add two numbers".

Definition calculator_tools : list Mcp.tool :=
  [ add_tool;
    binary_tool "subtract" "Subtract b from a";
    binary_tool "multiply" "Multiply two numbers";
    greet_tool ].

(** The calculator server, up. *)
Definition calculator_client : Mcp.client :=
  {| Mcp.aenter := true;
     Mcp.list_tools_mcp := Some calculator_tools;
     Mcp.client_call_tool := calculator |}.

(** A server that is down: entering the connection raises. *)
Definition down_client : Mcp.client :=
  {| Mcp.aenter := false;
     Mcp.list_tools_mcp := None;
     Mcp.client_call_tool := fun _ _ => Mcp.Raises "Client is not connected" |}.

(** A server that accepts the connection and fails the discovery call. *)
Definition mute_client : Mcp.client :=
  {| Mcp.aenter := true;
     Mcp.list_tools_mcp := None;
     Mcp.client_call_tool := fun _ _ => Mcp.Raises "Client is not connected" |}.

(** The calculator server with a tool of absent identity listed first. *)
Definition malformed_client : Mcp.client :=
  {| Mcp.aenter := true;
     Mcp.list_tools_mcp := Some [nameless_tool; add_tool];
     Mcp.client_call_tool := calculator |}.

(** A server whose every tool answers with one image block. *)
Definition image_client : Mcp.client :=
  {| Mcp.aenter := true;
     Mcp.list_tools_mcp := Some [];
     Mcp.client_call_tool := fun _ _ =>
       Mcp.Returns {| Mcp.structured_content := None;
                      Mcp.data := None;
                      Mcp.content := Some (Mcp.ContentList [image_content]) |} |}.

(** The calculator server with every call raising. *)
Definition failing_client : Mcp.client :=
  {| Mcp.aenter := true;
     Mcp.list_tools_mcp := Some calculator_tools;
     Mcp.client_call_tool := fun _ _ => Mcp.Raises "boom" |}.

(** The environment with [calc] behind the calculator URL and [test] behind
    the URL of the test tools. *)
Definition env_with (calc test : option Mcp.client) : Env :=
  {| json_loads := sample_loads;
     new_client := fun url =>
       if String.eqb url "http://127.0.0.1:8002/mcp2" then calc
       else if String.eqb url "http://127.0.0.1:8001/mcp1" then test
       else None;
     valid_parameter_name := fun n => negb (String.eqb n "");
     coerce_query := sample_coerce |}.

(** The calculator up, the test tools down. *)
Definition env : Env := env_with (Some calculator_client) (Some down_client).

(** The calculator accepts the connection handle and then fails to enter. *)
Definition unreachable : Env := env_with (Some down_client) (Some down_client).

(** The calculator lists a malformed tool, the test tools fail discovery. *)
Definition broken : Env := env_with (Some malformed_client) (Some mute_client).

(** The five results of the normalizer's examples. *)
Definition structured_and_data : Mcp.call_result :=
  {| Mcp.structured_content := Some (VDict [("x", VInt 1)]);
     Mcp.data := Some (VInt 5);
     Mcp.content := None |}.

Definition only_data : Mcp.call_result :=
  {| Mcp.structured_content := Some VNone;
     Mcp.data := Some (VInt 5);
     Mcp.content := Some (Mcp.ContentList []) |}.

Definition only_text (text : string) : Mcp.call_result :=
  {| Mcp.structured_content := Some VNone;
     Mcp.data := Some VNone;
     Mcp.content := Some (Mcp.ContentList [text_content text]) |}.

Definition json_text : string := "{" ++ dq ++ "y" ++ dq ++ ":2}".

Definition empty_result : Mcp.call_result :=
  {| Mcp.structured_content := Some VNone;
     Mcp.data := Some VNone;
     Mcp.content := Some (Mcp.ContentList []) |}.

(** The calculator raises on every call, the test tools are down. *)
Definition failing : Env := env_with (Some failing_client) (Some down_client).

(** The calculator answers every call with an image block. *)
Definition imaging : Env := env_with (Some image_client) (Some down_client).

(** The gateways after their startup against [env]. *)
Definition multi_started : Multi.state := @Multi.startup_event env Multi.initial.

Definition single_started : Single.state := @Single.startup_event env Single.initial.


(** What both variants cache for [greet]. *)
Definition greet_data : tool_data :=
  {| td_name := "greet";
     td_title := Mcp.title greet_tool;
     td_description := Mcp.description greet_tool;
     td_inputSchema := Mcp.inputSchema greet_tool;
     td_outputSchema := Mcp.outputSchema greet_tool |}.

Definition multi_failing : Multi.state := @Multi.startup_event failing Multi.initial.

Definition single_failing : Single.state := @Single.startup_event failing Single.initial.

Definition multi_imaging : Multi.state := @Multi.startup_event imaging Multi.initial.

Definition single_imaging : Single.state := @Single.startup_event imaging Single.initial.

Definition multi_broken : Multi.state := @Multi.startup_event broken Multi.initial.


End Demo.

(** [args] is [params] without the entries whose value is [None]: every other
    entry is there with its value, and nothing else is. *)
Definition passes_all_but_none (params args : gmap string value) : Prop :=
  forall k : string,
    args !! k = match params !! k with
                | Some v => if is_none v then None else Some v
                | None => None
                end.

(** What holds of the globals wherever the control of the startup is: every
    cached source is a connected one, and a source about to be listed already
    is. *)
Definition startup_invariant (c : Multi.state * Multi.control) : Prop :=
  dom (Multi.tools_cache c.1) ⊆ dom (Multi.clients c.1) /\
  match c.2 with
  | Multi.AtListing name _ _ => name ∈ dom (Multi.clients c.1)
  | _ => True
  end.

(** The dictionary the startup loops build for a tool read under [tool_name]. *)
Definition data_of (tool_name : string) (tool : Mcp.tool) : tool_data :=
  {| td_name := tool_name;
     td_title := Mcp.title tool;
     td_description := Mcp.description tool;
     td_inputSchema := Mcp.inputSchema tool;
     td_outputSchema := Mcp.outputSchema tool |}.

(** The route a tool of a discovery response is bound to, [None] when reading
    its name or binding it raises. *)
Definition multi_bound `{Env} (server_name : string) (tool : Mcp.tool)
    : option (route Multi.closure) :=
  match Mcp.name tool with
  | Some tool_name =>
      Multi.create_dynamic_endpoint tool_name (data_of tool_name tool) server_name
  | None => None
  end.

Definition single_bound `{Env} (tool : Mcp.tool) : option (route Single.closure) :=
  match Mcp.name tool with
  | Some tool_name => Single.create_dynamic_endpoint tool_name (data_of tool_name tool)
  | None => None
  end.

(** A cache of tools with one more tool written to it. *)
Definition cache_tool (cache : gmap string tool_data) (tool : Mcp.tool)
    : gmap string tool_data :=
  match Mcp.name tool with
  | Some tool_name => <[tool_name := data_of tool_name tool]> cache
  | None => cache
  end.

(** Every route of the multi-backend gateway serves a tool that is cached
    under the route's source. *)
Definition multi_routes_cached (st : Multi.state) : Prop :=
  forall r, r ∈ Multi.routes st ->
    exists cache td,
      Multi.tools_cache st !! (endpoint r).2 = Some cache /\
      cache !! (endpoint r).1 = Some td /\
      path r = "/" ++ (endpoint r).1.

Definition single_routes_cached (st : Single.state) : Prop :=
  forall r, r ∈ Single.routes st ->
    exists td,
      Single.tools_cache st !! endpoint r = Some td /\
      path r = "/" ++ endpoint r.

(** The globals of the multi-backend gateway once the calculator is connected
    and its cache entry created, before any tool is loaded. *)
Definition demo_connected : Multi.state :=
  {| Multi.clients := <["calculator tools" := Demo.calculator_client]> ∅;
     Multi.tools_cache := <["calculator tools" := ∅]> ∅;
     Multi.routes := [] |}.

(** A sample teardown: only the calculator's connection exits cleanly. *)
Definition demo_teardown : Teardown :=
  {| aexit := fun c => match Mcp.list_tools_mcp c with
                       | Some (_ :: _) => true
                       | _ => false
                       end |}.

(** A sample workbook writer: the names of the rows, one per line. *)
Definition demo_spreadsheet : Spreadsheet :=
  {| to_excel := fun rows => Some (join "\n" (row_name <$> rows)) |}.

(** ** [tool/calculator_tool.py] *)

Module Calculator.

(** Python integers are unbounded. [divide] returns a float and is left out. *)
Definition add (a b : Z) : Z := (a + b)%Z.

Definition subtract (a b : Z) : Z := (a - b)%Z.

Definition multiply (a b : Z) : Z := (a * b)%Z.

Definition greet (name : string) : string := "Hello, " ++ name ++ "!".

End Calculator.

(** ** [tool/test_tool.py]: the in-memory store *)

Module TestTool.

(** A value of [memory_store]: the keys ["value"] and ["saved_at"]. *)
Record entry : Type := { value : string; saved_at : string }.

(** [memory_store], a [dict] in insertion order. *)
Definition memory : Type := list (string * entry).

(** [d[key] = e]: an existing key keeps its place, a new one goes last. *)
Fixpoint set_item (key : string) (e : entry) (d : memory) : memory :=
  match d with
  | [] => [(key, e)]
  | (k, e') :: rest =>
      if String.eqb k key then (k, e) :: rest else (k, e') :: set_item key e rest
  end.

(** [d.get(key)] *)
Fixpoint get_item (key : string) (d : memory) : option entry :=
  match d with
  | [] => None
  | (k, e) :: rest => if String.eqb k key then Some e else get_item key rest
  end.

(** [list(d.keys())] *)
Definition keys (d : memory) : list string := d.*1.

(** What the three tools answer. *)
Inductive reply : Type :=
| Saved (key message saved_at : string)
| Retrieved (e : entry)
| NotFound (error : string) (available_keys : list string)
| Listed (keys : list string) (count : nat) (retrieved_at : string)
| KeyError (key : string).

(** [save_to_memory]; [now] is what [datetime.now().isoformat()] gives at the
    call. The reply reads the timestamp back from the store. *)
Definition save_to_memory (now key val : string) (d : memory) : reply * memory :=
  let d' := set_item key {| value := val; saved_at := now |} d in
  (match get_item key d' with
   | Some e => Saved key "데이터가 저장되었습니다" (saved_at e)
   | None => KeyError key
   end, d').

(** [retrieve_from_memory] *)
Definition retrieve_from_memory (key : string) (d : memory) : reply :=
  match get_item key d with
  | Some e => Retrieved e
  | None => NotFound "키를 찾을 수 없습니다" (keys d)
  end.

(** [list_memory_keys] *)
Definition list_memory_keys (now : string) (d : memory) : reply :=
  Listed (keys d) (length d) now.

(** One [save_to_memory] call: the clock, the key, the value. *)
Definition save_call : Type := string * string * string.

(** The store after a sequence of [save_to_memory] calls. *)
Definition after_saves (calls : list save_call) (d : memory) : memory :=
  foldl (fun d c => (save_to_memory c.1.1 c.1.2 c.2 d).2) d calls.

(** The entry the last call for [key] wrote, if there was one. *)
Definition last_saved (key : string) (calls : list save_call) : option entry :=
  (fun c : save_call => {| value := c.2; saved_at := c.1.1 |}) <$>
    last (filter (fun c : save_call => c.1.2 = key) calls).

(** The keys in the order of their first save. *)
Fixpoint first_saves (seen : list string) (calls : list save_call) : list string :=
  match calls with
  | [] => []
  | c :: rest =>
      if bool_decide (c.1.2 ∈ seen) then first_saves seen rest
      else c.1.2 :: first_saves (c.1.2 :: seen) rest
  end.

End TestTool.

(** A cached tool comes from the discovery response of a client. *)
Definition discovered_by (c : Mcp.client) (n : string) (td : tool_data) : Prop :=
  exists tools tool,
    Mcp.aenter c = true /\
    Mcp.list_tools_mcp c = Some tools /\
    tool ∈ tools /\ Mcp.name tool = Some n /\ td = data_of n tool.

(** * Properties *)

(** ** Strings *)

Lemma append_cons (a : Ascii.ascii) (s t : string) : String a s ++ t = String a (s ++ t).
Proof. reflexivity. Qed.

Lemma prefix_app (s post : string) : String.prefix s (s ++ post) = true.
Proof.
  induction s as [|a s IH].
  - by destruct post.
  - rewrite append_cons. simpl.
    destruct (Ascii.ascii_dec a a) as [_|Hne]; [exact IH | by destruct Hne].
Qed.

Lemma contains_prefix (s t : string) : String.prefix s t = true -> contains s t = true.
Proof. intros Hp. destruct t; cbn [contains]; rewrite Hp; done. Qed.

Lemma contains_app (s pre post : string) : contains s (pre ++ s ++ post) = true.
Proof.
  induction pre as [|a pre IH].
  - change ("" ++ s ++ post) with (s ++ post). apply contains_prefix, prefix_app.
  - rewrite append_cons. cbn [contains]. rewrite IH. apply orb_true_r.
Qed.

Lemma contains_suffix (s pre : string) : contains s (pre ++ s) = true.
Proof.
  pose proof (contains_app s pre "") as Hc.
  replace (s ++ "") with s in Hc; [done|].
  clear Hc. induction s as [|a s IH]; [done|].
  rewrite append_cons. by rewrite <- IH.
Qed.

Lemma contains_skip (s pre t : string) : contains s t = true -> contains s (pre ++ t) = true.
Proof.
  intros Ht. induction pre as [|a pre IH]; [exact Ht|].
  rewrite append_cons. cbn [contains]. rewrite IH. apply orb_true_r.
Qed.

(** ** The type mapper *)

Lemma mapping_unknown (t : string) :
  ~ known_tag t ->
  default Str ((<["string" := Str]> (<["integer" := Int]>
     (<["number" := Float]> (<["boolean" := Bool]> (∅ : gmap string py_type))))) !! t) = Str.
Proof.
  intros Hk. unfold known_tag in Hk.
  rewrite !lookup_insert_ne, lookup_empty by (intros <-; tauto). done.
Qed.

(** C7. [get_python_type] is a total function of its argument alone: in both
    variants the tags "string", "integer", "number" and "boolean" give [str],
    [int], [float] and [bool], and every other string gives [str]. *)
Theorem get_python_type_maps_tags :
  maps_tags Multi.get_python_type /\ maps_tags Single.get_python_type.
Proof.
  split; (repeat split; [reflexivity..|]);
    intros t Hk; apply (mapping_unknown t Hk).
Qed.

Lemma get_python_type_maps_tags_witness :
  Multi.get_python_type "array" = Str /\ Single.get_python_type "" = Str /\
  Multi.get_python_type "integer" = Int.
Proof.
  destruct get_python_type_maps_tags as [(_ & Hi & _ & _ & Hm) (_ & _ & _ & _ & Hs)].
  split; [|split].
  - apply Hm. unfold known_tag. intros [?|[?|[?|?]]]; discriminate.
  - apply Hs. unfold known_tag. intros [?|[?|[?|?]]]; discriminate.
  - exact Hi.
Defined.

(** ** The response normalizer *)

Lemma is_none_false (v : value) : v <> VNone -> is_none v = false.
Proof. by destruct v. Qed.

Lemma is_none_true (v : value) : is_none v = true <-> v = VNone.
Proof. by destruct v. Qed.

(** Rewrites the tests of the chain with what the hypotheses say of them. *)
Ltac settle_structured r :=
  match goal with
  | Hs : has_structured r _ |- _ =>
      destruct Hs as [Hs1 Hs2]; rewrite Hs1, Hs2
  | Hs : no_structured r |- _ =>
      destruct (Mcp.structured_content r) as [sc0|] eqn:Esc;
      [rewrite (Hs sc0 Esc)|]
  end.

Ltac settle_data r :=
  match goal with
  | Hd : has_data r _ |- _ =>
      destruct Hd as [Hd1 Hd2]; rewrite Hd1, (is_none_false _ Hd2)
  | Hd : no_data r |- _ =>
      destruct (Mcp.data r) as [d0|] eqn:Ed;
      [rewrite (Hd d0 Ed); cbn [is_none]|]
  end.

Section Normalizer.
Context `{Env}.

Lemma multi_structured r sc : has_structured r sc -> Multi.normalize r = sc.
Proof. intros Hs. unfold Multi.normalize. settle_structured r. done. Qed.

Lemma single_structured r sc : has_structured r sc -> Single.normalize r = sc.
Proof. intros Hs. unfold Single.normalize. settle_structured r. done. Qed.

Lemma multi_data r d :
  no_structured r -> has_data r d -> Multi.normalize r = result_of d.
Proof.
  intros Hs Hd. unfold Multi.normalize.
  settle_structured r; settle_data r; done.
Qed.

Lemma single_data r d :
  no_structured r -> has_data r d -> Single.normalize r = result_of d.
Proof.
  intros Hs Hd. unfold Single.normalize.
  settle_structured r; settle_data r; done.
Qed.

Lemma multi_text r text :
  no_structured r -> no_data r -> first_text r text ->
  Multi.normalize r = match loads text with
                      | Some parsed => parsed
                      | None => result_of text
                      end.
Proof.
  intros Hs Hd (first & rest & Hc & Ht). unfold Multi.normalize.
  settle_structured r; settle_data r; rewrite Hc; cbn; rewrite Ht; done.
Qed.

Lemma single_text r text :
  no_structured r -> no_data r -> first_text r text ->
  Single.normalize r = match loads text with
                       | Some parsed => parsed
                       | None => result_of text
                       end.
Proof.
  intros Hs Hd (first & rest & Hc & Ht). unfold Single.normalize, Single.parse_content.
  settle_structured r; settle_data r; rewrite Hc; cbn; rewrite Ht; done.
Qed.

Lemma multi_empty r :
  no_structured r -> no_data r -> no_content r ->
  Multi.normalize r = result_of (VStr "Success").
Proof.
  intros Hs Hd Hc. unfold Multi.normalize.
  settle_structured r; settle_data r;
    (destruct (Mcp.content r) as [c|] eqn:Ec; [rewrite (Hc c Ec)|]); done.
Qed.

Lemma single_empty r :
  no_structured r -> no_data r -> no_content r ->
  Single.normalize r = result_of (VStr "Success").
Proof.
  intros Hs Hd Hc. unfold Single.normalize.
  settle_structured r; settle_data r;
    (destruct (Mcp.content r) as [c|] eqn:Ec; [rewrite (Hc c Ec)|]); done.
Qed.

End Normalizer.

(** C1. In both variants the result-shaping logic of [call_tool] honors the
    precedence chain: a non-empty structured content is returned verbatim
    whatever else the result carries; otherwise a non-null data field [d]
    gives [{"result": d}]; otherwise the text of the first element of a
    content list gives its JSON parse, or [{"result": text}] when it does not
    parse; and a result with no payload gives [{"result": "Success"}]. *)
Theorem normalize_honors_precedence `{Env} :
  honors_precedence Multi.normalize /\ honors_precedence Single.normalize.
Proof.
  split; intros r; (split; [|split; [|split]]).
  - apply multi_structured.
  - intros Hs d Hd. by apply multi_data.
  - intros Hs Hd text Ht. by apply multi_text.
  - apply multi_empty.
  - apply single_structured.
  - intros Hs d Hd. by apply single_data.
  - intros Hs Hd text Ht. by apply single_text.
  - apply single_empty.
Qed.

Lemma normalize_honors_precedence_witness :
  (@Multi.normalize Demo.env Demo.structured_and_data = VDict [("x", VInt 1)] /\
   @Multi.normalize Demo.env Demo.only_data = result_of (VInt 5) /\
   @Multi.normalize Demo.env (Demo.only_text Demo.json_text) = VDict [("y", VInt 2)] /\
   @Multi.normalize Demo.env (Demo.only_text "not-json") = result_of (VStr "not-json") /\
   @Multi.normalize Demo.env Demo.empty_result = result_of (VStr "Success")) /\
  (@Single.normalize Demo.env Demo.structured_and_data = VDict [("x", VInt 1)] /\
   @Single.normalize Demo.env Demo.only_data = result_of (VInt 5) /\
   @Single.normalize Demo.env (Demo.only_text Demo.json_text) = VDict [("y", VInt 2)] /\
   @Single.normalize Demo.env (Demo.only_text "not-json") = result_of (VStr "not-json") /\
   @Single.normalize Demo.env Demo.empty_result = result_of (VStr "Success")).
Proof.
  destruct (@normalize_honors_precedence Demo.env) as [Hm Hs].
  assert (Hns : forall r, Mcp.structured_content r = Some VNone -> no_structured r).
  { intros r Hr sc Hsc. rewrite Hr in Hsc. by injection Hsc as <-. }
  assert (Hnd : forall r, Mcp.data r = Some VNone -> no_data r).
  { intros r Hr d Hd. rewrite Hr in Hd. by injection Hd as <-. }
  assert (Hnc : forall r, Mcp.content r = Some (Mcp.ContentList []) -> no_content r).
  { intros r Hr c Hc. rewrite Hr in Hc. by injection Hc as <-. }
  assert (Hft : forall s, first_text (Demo.only_text s) (VStr s)).
  { intros s. by exists (Demo.text_content s), []. }
  split; (split; [|split; [|split; [|split]]]).
  - apply (proj1 (Hm Demo.structured_and_data)). by split.
  - apply (proj1 (proj2 (Hm Demo.only_data))); [by apply Hns | by split].
  - exact (proj1 (proj2 (proj2 (Hm (Demo.only_text Demo.json_text))))
             (Hns (Demo.only_text Demo.json_text) eq_refl)
             (Hnd (Demo.only_text Demo.json_text) eq_refl) _ (Hft Demo.json_text)).
  - exact (proj1 (proj2 (proj2 (Hm (Demo.only_text "not-json"))))
             (Hns (Demo.only_text "not-json") eq_refl)
             (Hnd (Demo.only_text "not-json") eq_refl) _ (Hft "not-json")).
  - apply (proj2 (proj2 (proj2 (Hm Demo.empty_result))));
      [by apply Hns | by apply Hnd | by apply Hnc].
  - apply (proj1 (Hs Demo.structured_and_data)). by split.
  - apply (proj1 (proj2 (Hs Demo.only_data))); [by apply Hns | by split].
  - exact (proj1 (proj2 (proj2 (Hs (Demo.only_text Demo.json_text))))
             (Hns (Demo.only_text Demo.json_text) eq_refl)
             (Hnd (Demo.only_text Demo.json_text) eq_refl) _ (Hft Demo.json_text)).
  - exact (proj1 (proj2 (proj2 (Hs (Demo.only_text "not-json"))))
             (Hns (Demo.only_text "not-json") eq_refl)
             (Hnd (Demo.only_text "not-json") eq_refl) _ (Hft "not-json")).
  - apply (proj2 (proj2 (proj2 (Hs Demo.empty_result))));
      [by apply Hns | by apply Hnd | by apply Hnc].
Defined.

(** ** The arguments handed to the backend *)

Lemma filter_none_lookup (params : gmap string value) (k : string) :
  filter (fun kv : string * value => is_none kv.2 = false) params !! k =
  match params !! k with
  | Some v => if is_none v then None else Some v
  | None => None
  end.
Proof.
  destruct (params !! k) as [v|] eqn:Ek.
  - destruct (is_none v) eqn:Ev.
    + apply map_lookup_filter_None. right. intros x Hx. simpl.
      rewrite Ek in Hx. injection Hx as <-. by rewrite Ev.
    + by apply map_lookup_filter_Some.
  - apply map_lookup_filter_None. by left.
Qed.

Lemma multi_drop_none (params : gmap string value) :
  passes_all_but_none params (Multi.drop_none params).
Proof. intros k. apply filter_none_lookup. Qed.


Lemma passes_retains params args k v :
  passes_all_but_none params args -> params !! k = Some v -> v <> VNone ->
  args !! k = Some v.
Proof. intros Hp Hk Hv. by rewrite (Hp k), Hk, (is_none_false v Hv). Qed.

Lemma passes_excludes params args k :
  passes_all_but_none params args ->
  params !! k = None \/ params !! k = Some VNone -> args !! k = None.
Proof. intros Hp [Hk|Hk]; by rewrite (Hp k), Hk. Qed.


Section Gateway.
Context `{Env}.


Lemma multi_call_trace_args st tool_name params server_name inv :
  inv ∈ (Multi.call_tool st tool_name params server_name).2 ->
  inv = (server_name, tool_name, Multi.drop_none params).
Proof.
  unfold Multi.call_tool. destruct (Multi.clients st !! server_name); simpl.
  - by intros ->%list_elem_of_singleton.
  - by intros ?%elem_of_nil.
Qed.



End Gateway.





(** The sample gateways hold the calculator's connection after startup. *)
Lemma demo_multi_client :
  Multi.clients Demo.multi_started !! "calculator tools" = Some Demo.calculator_client.
Proof. vm_compute. reflexivity. Qed.

Lemma demo_single_client : Single.client Demo.single_started = Some Demo.calculator_client.
Proof. vm_compute. reflexivity. Qed.





(** ** Request validation in front of the gateway *)

Section Validation.
Context `{Env}.

Lemma bind_errors_missing sig query p par :
  sig !! p = Some par -> default_value par = Ellipsis -> query !! p = None ->
  Missing p ∈ bind_errors sig query.
Proof.
  intros Hsig Hdef Hq. unfold bind_errors.
  apply list_elem_of_omap. exists (p, par). split.
  - by apply elem_of_map_to_list.
  - simpl. unfold bind_parameter. by rewrite Hq, Hdef.
Qed.

Lemma dispatch_rejects {A} sig query (handler : gmap string value -> response * list A) e :
  e ∈ bind_errors sig query ->
  dispatch sig query handler = (RequestValidationError (bind_errors sig query), []).
Proof.
  intros He. unfold dispatch.
  destruct (bind_errors sig query) as [|e0 errs]; [by apply elem_of_nil in He | done].
Qed.

Lemma bind_kwargs_optional sig query p par :
  sig !! p = Some par -> default_value par = DefaultNone -> query !! p = None ->
  bind_kwargs sig query !! p = Some VNone.
Proof.
  intros Hsig Hdef Hq. unfold bind_kwargs.
  rewrite map_lookup_imap, Hsig. simpl. unfold bind_parameter. by rewrite Hq, Hdef.
Qed.

Lemma multi_signature tool_name td server_name r p sch :
  Multi.create_dynamic_endpoint tool_name td server_name = Some r ->
  Mcp.properties (td_inputSchema td) !! p = Some sch ->
  exists info,
    signature r !! p = Some (parameter_of info) /\
    info_required info = bool_decide (p ∈ Mcp.required (td_inputSchema td)).
Proof.
  unfold Multi.create_dynamic_endpoint, Multi.create_signature. intros Hr Hp.
  destruct (forallb _ _); [|discriminate]. injection Hr as <-. simpl.
  eexists. rewrite lookup_fmap. unfold Multi.build_param_info.
  rewrite map_lookup_imap, Hp. simpl. split; reflexivity.
Qed.

Lemma single_signature tool_name td r p sch :
  Single.create_dynamic_endpoint tool_name td = Some r ->
  Mcp.properties (td_inputSchema td) !! p = Some sch ->
  exists info,
    signature r !! p = Some (parameter_of info) /\
    info_required info = bool_decide (p ∈ Mcp.required (td_inputSchema td)).
Proof.
  unfold Single.create_dynamic_endpoint, Single.create_signature. intros Hr Hp.
  destruct (forallb _ _); [|discriminate]. injection Hr as <-. simpl.
  eexists. rewrite lookup_fmap. unfold Single.build_param_info.
  rewrite map_lookup_imap, Hp. simpl. split; reflexivity.
Qed.

Lemma required_default info :
  info_required info = true -> default_value (parameter_of info) = Ellipsis.
Proof. intros Hr. unfold parameter_of. simpl. by rewrite Hr. Qed.

Lemma optional_default info :
  info_required info = false -> default_value (parameter_of info) = DefaultNone.
Proof. intros Hr. unfold parameter_of. simpl. by rewrite Hr. Qed.

End Validation.

(** C3. A request that omits a required parameter of an operation is rejected
    by the bound handler with a validation error that names the parameter as
    missing, and causes no invocation of a backend, in either variant. *)
Theorem missing_required_is_rejected `{Env} (td : tool_data) (p : string)
    (sch : Mcp.property_schema) (query : gmap string string) :
  Mcp.properties (td_inputSchema td) !! p = Some sch ->
  p ∈ Mcp.required (td_inputSchema td) ->
  query !! p = None ->
  (forall tool_name server_name r st,
     Multi.create_dynamic_endpoint tool_name td server_name = Some r ->
     exists errors,
       Multi.serve st r query = (RequestValidationError errors, []) /\
       Missing p ∈ errors) /\
  (forall tool_name r st,
     Single.create_dynamic_endpoint tool_name td = Some r ->
     exists errors,
       Single.serve st r query = (RequestValidationError errors, []) /\
       Missing p ∈ errors).
Proof.
  intros Hp Hreq Hq. split.
  - intros tool_name server_name r st Hr.
    destruct (multi_signature _ _ _ _ _ _ Hr Hp) as (info & Hsig & Hinfo).
    rewrite bool_decide_eq_true_2 in Hinfo by exact Hreq.
    pose proof (bind_errors_missing _ query _ _ Hsig (required_default _ Hinfo) Hq) as He.
    exists (bind_errors (signature r) query). split; [|exact He].
    unfold Multi.serve. by eapply dispatch_rejects.
  - intros tool_name r st Hr.
    destruct (single_signature _ _ _ _ _ Hr Hp) as (info & Hsig & Hinfo).
    rewrite bool_decide_eq_true_2 in Hinfo by exact Hreq.
    pose proof (bind_errors_missing _ query _ _ Hsig (required_default _ Hinfo) Hq) as He.
    exists (bind_errors (signature r) query). split; [|exact He].
    unfold Single.serve. by eapply dispatch_rejects.
Qed.

Lemma demo_greet_property :
  Mcp.properties (td_inputSchema Demo.greet_data) !! "name" =
  Some {| Mcp.p_type := Some "string"; Mcp.p_description := None;
          Mcp.p_title := Some "Name" |}.
Proof. vm_compute. reflexivity. Qed.

Lemma demo_greet_route :
  exists r, @Multi.create_dynamic_endpoint Demo.env "greet" Demo.greet_data
              "calculator tools" = Some r.
Proof.
  destruct (@Multi.create_dynamic_endpoint Demo.env "greet" Demo.greet_data
              "calculator tools") as [r|] eqn:E; [by exists r|].
  vm_compute in E. discriminate E.
Qed.

Lemma missing_required_is_rejected_witness :
  exists r errors,
    @Multi.create_dynamic_endpoint Demo.env "greet" Demo.greet_data "calculator tools" = Some r /\
    @Multi.serve Demo.env Demo.multi_started r ∅ = (RequestValidationError errors, []) /\
    Missing "name" ∈ errors.
Proof.
  destruct demo_greet_route as [r Hr]. exists r.
  destruct (proj1 (@missing_required_is_rejected Demo.env Demo.greet_data "name" _ ∅
                     demo_greet_property (list_elem_of_here "name" []) (lookup_empty "name"))
              "greet" "calculator tools" r Demo.multi_started Hr) as (errors & Hs & He).
  exists errors. split; [exact Hr | split; [exact Hs | exact He]].
Defined.

(** ** Error responses of the gateway *)

Section Errors.
Context `{Env}.

Lemma multi_unavailable st tool_name params server_name :
  Multi.clients st !! server_name = None ->
  Multi.call_tool st tool_name params server_name =
    (HTTPException 503 (server_name ++ " MCP 서버 연결 불가"), []).
Proof. intros Hc. unfold Multi.call_tool. by rewrite Hc. Qed.

Lemma multi_raises st tool_name params server_name c e :
  Multi.clients st !! server_name = Some c ->
  Mcp.client_call_tool c tool_name (Multi.drop_none params) = Mcp.Raises e ->
  (Multi.call_tool st tool_name params server_name).1 =
    HTTPException 500 (tool_name ++ " 실행 오류: " ++ e).
Proof. intros Hc He. unfold Multi.call_tool. rewrite Hc. simpl. by rewrite He. Qed.

Lemma single_raises st tool_name params c e :
  Single.client st = Some c ->
  Mcp.client_call_tool c tool_name (Single.drop_none params) = Mcp.Raises e ->
  (Single.call_tool st tool_name params).1 = HTTPException 500 ("도구 실행 중 오류: " ++ e).
Proof. intros Hc He. unfold Single.call_tool. rewrite Hc. simpl. by rewrite He. Qed.

End Errors.

(** C2, as the code has it. In the multi-backend variant a request for a source
    with no connection in [clients] is answered with status 503, and a remote
    call that raises is answered with status 500 and a detail that embeds the
    operation name and the text of the exception. In the single-backend
    variant a remote call that raises is answered with status 500 and a detail
    that embeds the text of the exception. *)
Theorem gateway_error_responses `{Env} (tool_name : string) (params : gmap string value) :
  (forall st server_name,
     Multi.clients st !! server_name = None ->
     exists detail,
       Multi.call_tool st tool_name params server_name = (HTTPException 503 detail, [])) /\
  (forall st server_name c e,
     Multi.clients st !! server_name = Some c ->
     Mcp.client_call_tool c tool_name (Multi.drop_none params) = Mcp.Raises e ->
     exists detail,
       (Multi.call_tool st tool_name params server_name).1 = HTTPException 500 detail /\
       contains tool_name detail = true /\ contains e detail = true) /\
  (forall st c e,
     Single.client st = Some c ->
     Mcp.client_call_tool c tool_name (Single.drop_none params) = Mcp.Raises e ->
     exists detail,
       (Single.call_tool st tool_name params).1 = HTTPException 500 detail /\
       contains e detail = true).
Proof.
  split; [|split].
  - intros st server_name Hc. eexists. by apply multi_unavailable.
  - intros st server_name c e Hc He. eexists. split; [by eapply multi_raises|]. split.
    + apply contains_prefix, prefix_app.
    + apply contains_skip, contains_suffix.
  - intros st c e Hc He. eexists. split; [by eapply single_raises|].
    apply contains_suffix.
Qed.

Lemma demo_multi_failing_client :
  Multi.clients Demo.multi_failing !! "calculator tools" = Some Demo.failing_client.
Proof. vm_compute. reflexivity. Qed.

Lemma demo_single_failing_client :
  Single.client Demo.single_failing = Some Demo.failing_client.
Proof. vm_compute. reflexivity. Qed.

Lemma demo_multi_no_client : Multi.clients Demo.multi_failing !! "test tools" = None.
Proof. vm_compute. reflexivity. Qed.

Lemma gateway_error_responses_witness :
  (exists detail,
     @Multi.call_tool Demo.failing Demo.multi_failing "add" ∅ "test tools" =
       (HTTPException 503 detail, [])) /\
  (exists detail,
     (@Multi.call_tool Demo.failing Demo.multi_failing "add" ∅ "calculator tools").1 =
       HTTPException 500 detail /\
     contains "add" detail = true /\ contains "boom" detail = true) /\
  (exists detail,
     (@Single.call_tool Demo.failing Demo.single_failing "add" ∅).1 =
       HTTPException 500 detail /\
     contains "boom" detail = true).
Proof.
  destruct (@gateway_error_responses Demo.failing "add" ∅) as (H503 & Hm & Hs).
  split; [|split].
  - exact (H503 Demo.multi_failing "test tools" demo_multi_no_client).
  - exact (Hm Demo.multi_failing "calculator tools" Demo.failing_client "boom"
             demo_multi_failing_client eq_refl).
  - exact (Hs Demo.single_failing Demo.failing_client "boom"
             demo_single_failing_client eq_refl).
Defined.

(** C2, counterexample: the single-backend variant answers a raising call to
    [add] with a detail that does not embed the operation name, and with no
    connection (the global [client] still [None]) it answers 500, not 503. *)
Lemma single_error_omits_operation_name :
  ((@Single.call_tool Demo.failing Demo.single_failing "add" ∅).1 =
     HTTPException 500 "도구 실행 중 오류: boom" /\
   contains "add" "도구 실행 중 오류: boom" = false) /\
  @Single.call_tool Demo.failing Single.initial "add" ∅ =
    (HTTPException 500
       "도구 실행 중 오류: 'NoneType' object has no attribute 'call_tool'", []).
Proof.
  split; [split|].
  - exact (@single_raises Demo.failing Demo.single_failing "add" ∅ Demo.failing_client
             "boom" demo_single_failing_client eq_refl).
  - vm_compute. reflexivity.
  - reflexivity.
Qed.

(** ** The two variants side by side *)

Section Variants.
Context `{Env}.

Lemma structured_or_not r : (exists sc, has_structured r sc) \/ no_structured r.
Proof.
  destruct (Mcp.structured_content r) as [sc|] eqn:E.
  - destruct (truthy sc) eqn:Et.
    + left. by exists sc.
    + right. intros sc' Hsc'. rewrite E in Hsc'. by injection Hsc' as <-.
  - right. intros sc' Hsc'. by rewrite E in Hsc'.
Qed.

Lemma data_or_not r : (exists d, has_data r d) \/ no_data r.
Proof.
  destruct (Mcp.data r) as [d|] eqn:E.
  - destruct (is_none d) eqn:Ed.
    + right. intros d' Hd'. rewrite E in Hd'. injection Hd' as <-.
      by apply is_none_true.
    + left. exists d. split; [done|]. intros ->. discriminate Ed.
  - right. intros d' Hd'. by rewrite E in Hd'.
Qed.

Lemma normalize_agree_on_content r :
  no_structured r -> no_data r ->
  (forall c, Mcp.content r = Some c -> content_alike c) ->
  Multi.normalize r = Single.normalize r.
Proof.
  intros Hs Hd Hc. unfold Multi.normalize, Single.normalize, Single.parse_content.
  settle_structured r; settle_data r;
    (destruct (Mcp.content r) as [c|] eqn:Ec; [|done];
     specialize (Hc c eq_refl);
     destruct c as [[|first rest]|o]; simpl in *; [done| |];
     [ destruct Hc as [text ->]; done
     | destruct (py_bool o); [rewrite (Hc eq_refl)|]; done ]).
Qed.

Lemma normalize_agree r : decided_alike r -> Multi.normalize r = Single.normalize r.
Proof.
  intros Hr.
  destruct (structured_or_not r) as [[sc Hsc]|Hns].
  { by rewrite (multi_structured r sc), (single_structured r sc). }
  destruct (data_or_not r) as [[d Hd]|Hnd].
  { by rewrite (multi_data r d), (single_data r d). }
  destruct Hr as [[sc [Hsc Ht]]|[[d [Hd Hv]]|Hc]].
  - rewrite (Hns sc Hsc) in Ht. discriminate Ht.
  - destruct Hv. by apply Hnd.
  - by apply normalize_agree_on_content.
Qed.

End Variants.

(** C8, as the code has it. The two variants shape a result alike whenever it
    is decided by a non-empty structured content, by a non-null data field, by
    an absent or empty content, by a content list whose first element carries
    text, or by a content object that carries none; over the same live
    connection they then answer a returning call with the same body, and a
    raising call with status 500 each. *)
Theorem variants_agree_where_decided_alike `{Env} :
  (forall r, decided_alike r -> Multi.normalize r = Single.normalize r) /\
  (forall mst sst server_name tool_name params c,
     Multi.clients mst !! server_name = Some c ->
     Single.client sst = Some c ->
     (forall r,
        Mcp.client_call_tool c tool_name (Multi.drop_none params) = Mcp.Returns r ->
        decided_alike r ->
        (Multi.call_tool mst tool_name params server_name).1 =
        (Single.call_tool sst tool_name params).1) /\
     (forall e,
        Mcp.client_call_tool c tool_name (Multi.drop_none params) = Mcp.Raises e ->
        exists detail detail',
          (Multi.call_tool mst tool_name params server_name).1 = HTTPException 500 detail /\
          (Single.call_tool sst tool_name params).1 = HTTPException 500 detail')).
Proof.
  split; [exact normalize_agree|].
  intros mst sst server_name tool_name params c Hm Hs. split.
  - intros r Hr Ha. unfold Multi.call_tool, Single.call_tool. rewrite Hm, Hs. simpl.
    change (Single.drop_none params) with (Multi.drop_none params).
    rewrite Hr. by rewrite (normalize_agree r Ha).
  - intros e He. do 2 eexists. split.
    + by eapply multi_raises.
    + by eapply single_raises.
Qed.

Lemma demo_add_returns :
  Mcp.client_call_tool Demo.calculator_client "add"
    (Multi.drop_none (<["a" := VInt 2]> (<["b" := VInt 3]> ∅))) =
  Demo.answer (VInt 5) "5".
Proof. vm_compute. reflexivity. Qed.

Lemma variants_agree_where_decided_alike_witness :
  (@Multi.call_tool Demo.env Demo.multi_started "add"
     (<["a" := VInt 2]> (<["b" := VInt 3]> ∅)) "calculator tools").1 =
  (@Single.call_tool Demo.env Demo.single_started "add"
     (<["a" := VInt 2]> (<["b" := VInt 3]> ∅))).1.
Proof.
  apply (proj1 (proj2 (@variants_agree_where_decided_alike Demo.env)
                  Demo.multi_started Demo.single_started "calculator tools" "add"
                  (<["a" := VInt 2]> (<["b" := VInt 3]> ∅)) Demo.calculator_client
                  demo_multi_client demo_single_client)
           _ demo_add_returns).
  left. exists (result_of (VInt 5)). split; reflexivity.
Defined.

Lemma demo_multi_imaging_client :
  Multi.clients Demo.multi_imaging !! "calculator tools" = Some Demo.image_client.
Proof. vm_compute. reflexivity. Qed.

Lemma demo_single_imaging_client :
  Single.client Demo.single_imaging = Some Demo.image_client.
Proof. vm_compute. reflexivity. Qed.

(** C8, counterexample: for a content list whose first element carries no
    text the multi-backend variant wraps the string form of the whole list and
    the single-backend variant that of the element; and with no connection the
    first answers 503 and the second 500. *)
Lemma variants_differ :
  ((@Multi.call_tool Demo.imaging Demo.multi_imaging "add" ∅ "calculator tools").1 =
     Ok (result_of (VStr "[ImageContent(type='image', mimeType='image/png')]")) /\
   (@Single.call_tool Demo.imaging Demo.single_imaging "add" ∅).1 =
     Ok (result_of (VStr "type='image' mimeType='image/png'"))) /\
  ((@Multi.call_tool Demo.imaging Multi.initial "add" ∅ "calculator tools").1 =
     HTTPException 503 "calculator tools MCP 서버 연결 불가" /\
   (@Single.call_tool Demo.imaging Single.initial "add" ∅).1 =
     HTTPException 500 "도구 실행 중 오류: 'NoneType' object has no attribute 'call_tool'").
Proof.
  split; split.
  - unfold Multi.call_tool. rewrite demo_multi_imaging_client. reflexivity.
  - unfold Single.call_tool. rewrite demo_single_imaging_client. reflexivity.
  - reflexivity.
  - reflexivity.
Qed.

(** ** Startup of the multi-backend variant *)

Section MultiStartup.
Context `{Env}.

Lemma multi_load_tools_clients name tools st :
  Multi.clients (Multi.load_tools name tools st) = Multi.clients st.
Proof.
  revert st. induction tools as [|tool tools IH]; intros st; simpl; [done|].
  destruct (Mcp.name tool) as [tool_name|]; [|done].
  destruct (Multi.tools_cache st !! name) as [cache|]; [|done].
  destruct (Multi.create_dynamic_endpoint _ _ _) as [r|]; [|done].
  by rewrite IH.
Qed.

Lemma multi_load_tools_cache_other name tools st k :
  k <> name ->
  Multi.tools_cache (Multi.load_tools name tools st) !! k = Multi.tools_cache st !! k.
Proof.
  intros Hk. revert st. induction tools as [|tool tools IH]; intros st; simpl; [done|].
  destruct (Mcp.name tool) as [tool_name|]; [|done].
  destruct (Multi.tools_cache st !! name) as [cache|]; [|done].
  destruct (Multi.create_dynamic_endpoint _ _ _) as [r|]; simpl.
  - rewrite IH. simpl. by rewrite lookup_insert_ne.
  - by rewrite lookup_insert_ne.
Qed.

Lemma multi_load_tools_cache_dom name tools st :
  is_Some (Multi.tools_cache st !! name) ->
  dom (Multi.tools_cache (Multi.load_tools name tools st)) = dom (Multi.tools_cache st).
Proof.
  revert st. induction tools as [|tool tools IH]; intros st Hn; simpl; [done|].
  destruct (Mcp.name tool) as [tool_name|]; [|done].
  destruct (Multi.tools_cache st !! name) as [cache|] eqn:Ec; [|done].
  assert (Hd : dom (<[name := <[tool_name :=
             {| td_name := tool_name; td_title := Mcp.title tool;
                td_description := Mcp.description tool;
                td_inputSchema := Mcp.inputSchema tool;
                td_outputSchema := Mcp.outputSchema tool |}]> cache]> (Multi.tools_cache st))
             = dom (Multi.tools_cache st)).
  { apply dom_insert_lookup_L. by rewrite Ec. }
  destruct (Multi.create_dynamic_endpoint _ _ _) as [r|]; simpl; [|exact Hd].
  rewrite IH; simpl; [exact Hd | by rewrite lookup_insert_eq].
Qed.

Lemma create_endpoint_server tool_name td name r :
  Multi.create_dynamic_endpoint tool_name td name = Some r -> (endpoint r).2 = name.
Proof.
  unfold Multi.create_dynamic_endpoint.
  destruct (Multi.create_signature _); [|discriminate]. by intros [= <-].
Qed.

Lemma multi_load_tools_routes name tools st r :
  r ∈ Multi.routes (Multi.load_tools name tools st) ->
  r ∈ Multi.routes st \/ (endpoint r).2 = name.
Proof.
  revert st. induction tools as [|tool tools IH]; intros st; simpl; [by left|].
  destruct (Mcp.name tool) as [tool_name|]; [|by left].
  destruct (Multi.tools_cache st !! name) as [cache|]; [|by left].
  destruct (Multi.create_dynamic_endpoint _ _ _) as [r'|] eqn:Er; simpl; [|by left].
  intros [Hr|Hr]%IH; [|by right]. simpl in Hr.
  apply elem_of_app in Hr as [Hr|Hr]; [by left|].
  apply list_elem_of_singleton in Hr as ->. right. by eapply create_endpoint_server.
Qed.

Lemma multi_load_server_failed st s :
  connection_fails (Multi.server_url s) -> Multi.load_server st s = st.
Proof.
  unfold connection_fails, Multi.load_server.
  destruct (new_client (Multi.server_url s)) as [c|]; [|done]. by intros ->.
Qed.

Lemma multi_load_server_clients_other st s k :
  k <> Multi.server_name s ->
  Multi.clients (Multi.load_server st s) !! k = Multi.clients st !! k.
Proof.
  intros Hk. unfold Multi.load_server.
  destruct (new_client _) as [c|]; [|done].
  destruct (Mcp.aenter c); [|done].
  destruct (Mcp.list_tools_mcp c) as [tools|]; simpl.
  - rewrite multi_load_tools_clients. simpl. by rewrite lookup_insert_ne.
  - by rewrite lookup_insert_ne.
Qed.

Lemma multi_load_server_cache_other st s k :
  k <> Multi.server_name s ->
  Multi.tools_cache (Multi.load_server st s) !! k = Multi.tools_cache st !! k.
Proof.
  intros Hk. unfold Multi.load_server.
  destruct (new_client _) as [c|]; [|done].
  destruct (Mcp.aenter c); [|done].
  destruct (Mcp.list_tools_mcp c) as [tools|]; simpl; [|done].
  rewrite multi_load_tools_cache_other by done. simpl. by rewrite lookup_insert_ne.
Qed.

Lemma multi_load_server_routes st s r :
  r ∈ Multi.routes (Multi.load_server st s) ->
  r ∈ Multi.routes st \/ (endpoint r).2 = Multi.server_name s.
Proof.
  unfold Multi.load_server.
  destruct (new_client _) as [c|]; [|by left].
  destruct (Mcp.aenter c); [|by left].
  destruct (Mcp.list_tools_mcp c) as [tools|]; simpl; [|by left].
  by intros Hr%multi_load_tools_routes.
Qed.

Lemma multi_load_servers_app before after st :
  Multi.load_servers (before ++ after) st =
  Multi.load_servers after (Multi.load_servers before st).
Proof. unfold Multi.load_servers. apply foldl_app. Qed.

Lemma multi_load_servers_other servers st k :
  k ∉ Multi.server_name <$> servers ->
  Multi.clients (Multi.load_servers servers st) !! k = Multi.clients st !! k /\
  Multi.tools_cache (Multi.load_servers servers st) !! k = Multi.tools_cache st !! k /\
  forall r, r ∈ Multi.routes (Multi.load_servers servers st) ->
            r ∈ Multi.routes st \/ (endpoint r).2 <> k.
Proof.
  revert st. induction servers as [|s servers IH]; intros st Hk.
  - repeat split; [done..|]. by left.
  - rewrite fmap_cons in Hk. apply not_elem_of_cons in Hk as [Hs Hk].
    destruct (IH (Multi.load_server st s) Hk) as (Hc & Ht & Hr).
    change (Multi.load_servers (s :: servers) st)
      with (Multi.load_servers servers (Multi.load_server st s)).
    rewrite Hc, Ht, multi_load_server_clients_other, multi_load_server_cache_other by done.
    repeat split; [done..|].
    intros r [Hin|Hne]%Hr; [|by right].
    apply multi_load_server_routes in Hin as [Hin|Hin]; [by left|].
    right. by rewrite Hin.
Qed.

Lemma multi_root_entry st e :
  e ∈ Multi.root st -> is_Some (Multi.tools_cache st !! Multi.entry_server e).
Proof.
  unfold Multi.root. intros ([k tools] & -> & Hin)%list_elem_of_fmap.
  apply elem_of_map_to_list in Hin. simpl. by rewrite Hin.
Qed.

End MultiStartup.

Lemma single_startup_failed `{Env} :
  connection_fails Single.MCP_URL ->
  Single.tools_cache (Single.startup_event Single.initial) = ∅ /\
  Single.routes (Single.startup_event Single.initial) = [].
Proof.
  unfold connection_fails, Single.startup_event.
  destruct (new_client Single.MCP_URL) as [c|]; [|done]. by intros ->.
Qed.

(** C5, as the code has it. A source whose connection attempt fails does not
    stop the startup and leaves every global as it was, so the other sources
    are loaded as if it had not been configured. In the multi-backend variant
    a failed source whose name no other source carries has no entry in
    [clients] or [tools_cache], no entry in the root listing and no route. In
    the single-backend variant the cache and the routes stay empty and the
    root listing reports no tools, under the URL the gateway is configured
    with. *)
Theorem failed_source_contributes_nothing `{Env} :
  (forall s : Multi.server,
     connection_fails (Multi.server_url s) ->
     (forall st, Multi.load_server st s = st) /\
     (forall before after st,
        Multi.load_servers (before ++ s :: after) st =
        Multi.load_servers (before ++ after) st) /\
     (forall before after,
        Multi.server_name s ∉ Multi.server_name <$> (before ++ after)%list ->
        let final := Multi.load_servers (before ++ s :: after) Multi.initial in
        Multi.clients final !! Multi.server_name s = None /\
        Multi.tools_cache final !! Multi.server_name s = None /\
        (forall e, e ∈ Multi.root final -> Multi.entry_server e <> Multi.server_name s) /\
        (forall r, r ∈ Multi.routes final -> (endpoint r).2 <> Multi.server_name s))) /\
  (connection_fails Single.MCP_URL ->
     let final := Single.startup_event Single.initial in
     Single.tools_cache final = ∅ /\
     Single.routes final = [] /\
     Single.available_tools (Single.root final) = [] /\
     Single.total (Single.root final) = 0 /\
     Single.mcp_server (Single.root final) = Single.MCP_URL).
Proof.
  split.
  - intros s Hs.
    assert (Hskip : forall before after st,
              Multi.load_servers (before ++ s :: after) st =
              Multi.load_servers (before ++ after) st).
    { intros before after st. rewrite !multi_load_servers_app.
      change (Multi.load_servers (s :: after) (Multi.load_servers before st))
        with (Multi.load_servers after
                (Multi.load_server (Multi.load_servers before st) s)).
      by rewrite multi_load_server_failed. }
    split; [intros st; by apply multi_load_server_failed|].
    split; [exact Hskip|].
    intros before after Hname final. subst final. rewrite Hskip.
    destruct (multi_load_servers_other (before ++ after)%list Multi.initial _ Hname)
      as (Hc & Ht & Hr).
    split; [by rewrite Hc|]. split; [by rewrite Ht|]. split.
    + intros e He%multi_root_entry Heq. rewrite Heq, Ht in He.
      by destruct He as [? ?].
    + intros r [Hin|Hne]%Hr; [by apply elem_of_nil in Hin | done].
  - intros Hs final. subst final.
    destruct (single_startup_failed Hs) as [Ht Hr].
    unfold Single.root. rewrite Ht, Hr, map_to_list_empty. done.
Qed.

Lemma demo_test_tools_down :
  @connection_fails Demo.env "http://127.0.0.1:8001/mcp1".
Proof. vm_compute. reflexivity. Qed.

Lemma demo_calculator_unreachable : @connection_fails Demo.unreachable Single.MCP_URL.
Proof. vm_compute. reflexivity. Qed.

Lemma demo_names_differ :
  "test tools" ∉ Multi.server_name <$>
    ([ {| Multi.server_name := "calculator tools";
          Multi.server_url := "http://127.0.0.1:8002/mcp2" |} ] ++ [])%list.
Proof. intros Hin. apply list_elem_of_singleton in Hin. discriminate Hin. Qed.

Lemma failed_source_contributes_nothing_witness :
  (Multi.clients (@Multi.startup_event Demo.env Multi.initial) !! "test tools" = None /\
   Multi.tools_cache (@Multi.startup_event Demo.env Multi.initial) !! "test tools" = None /\
   (forall e, e ∈ Multi.root (@Multi.startup_event Demo.env Multi.initial) ->
              Multi.entry_server e <> "test tools") /\
   (forall r, r ∈ Multi.routes (@Multi.startup_event Demo.env Multi.initial) ->
              (endpoint r).2 <> "test tools")) /\
  (Single.tools_cache (@Single.startup_event Demo.unreachable Single.initial) = ∅ /\
   Single.routes (@Single.startup_event Demo.unreachable Single.initial) = [] /\
   Single.available_tools (Single.root (@Single.startup_event Demo.unreachable Single.initial)) = [] /\
   Single.total (Single.root (@Single.startup_event Demo.unreachable Single.initial)) = 0 /\
   Single.mcp_server (Single.root (@Single.startup_event Demo.unreachable Single.initial)) =
     Single.MCP_URL).
Proof.
  split.
  - exact (proj2 (proj2 (proj1 (@failed_source_contributes_nothing Demo.env)
             {| Multi.server_name := "test tools";
                Multi.server_url := "http://127.0.0.1:8001/mcp1" |}
             demo_test_tools_down))
           [ {| Multi.server_name := "calculator tools";
                Multi.server_url := "http://127.0.0.1:8002/mcp2" |} ] []
           demo_names_differ).
  - exact (proj2 (@failed_source_contributes_nothing Demo.unreachable)
             demo_calculator_unreachable).
Defined.

(** C5, counterexample: after a failed connection the single-backend variant
    still names the source in its root listing, and its global [client] holds
    the handle that failed to connect. *)
Lemma single_listing_names_failed_source :
  @connection_fails Demo.unreachable Single.MCP_URL /\
  Single.mcp_server (Single.root (@Single.startup_event Demo.unreachable Single.initial)) =
    "http://127.0.0.1:8002/mcp2" /\
  Single.client (@Single.startup_event Demo.unreachable Single.initial) =
    Some Demo.down_client.
Proof.
  split; [exact demo_calculator_unreachable|].
  split; [reflexivity|]. vm_compute. reflexivity.
Qed.

(** ** A tool without identity in the discovery response *)

Section Loading.
Context `{Env}.



End Loading.




(** ** The startup, statement by statement *)

Section Steps.
Context `{Env}.

Lemma steps_load_tools name tools rest st :
  rtc Multi.steps_to (st, Multi.AtTools name tools rest)
    (Multi.load_tools name tools st, Multi.AtServers rest).
Proof.
  revert st. induction tools as [|tool tools IH]; intros st.
  - by apply rtc_once.
  - simpl. destruct (Mcp.name tool) as [tool_name|] eqn:En.
    + destruct (Multi.tools_cache st !! name) as [cache|] eqn:Ec.
      * eapply rtc_l.
        { unfold Multi.steps_to, Multi.step. simpl. rewrite En, Ec. reflexivity. }
        destruct (Multi.create_dynamic_endpoint _ _ _) as [r|] eqn:Er.
        -- eapply rtc_l; [|apply IH].
           unfold Multi.steps_to, Multi.step. simpl. by rewrite Er.
        -- apply rtc_once. unfold Multi.steps_to, Multi.step. simpl. by rewrite Er.
      * apply rtc_once. unfold Multi.steps_to, Multi.step. simpl. by rewrite En, Ec.
    + apply rtc_once. unfold Multi.steps_to, Multi.step. simpl. by rewrite En.
Qed.

Lemma steps_load_server s rest st :
  rtc Multi.steps_to (st, Multi.AtServers (s :: rest))
    (Multi.load_server st s, Multi.AtServers rest).
Proof.
  unfold Multi.load_server.
  destruct (new_client (Multi.server_url s)) as [c|] eqn:Ec.
  - destruct (Mcp.aenter c) eqn:Ea.
    + eapply rtc_l.
      { unfold Multi.steps_to, Multi.step. simpl. rewrite Ec, Ea. reflexivity. }
      destruct (Mcp.list_tools_mcp c) as [tools|] eqn:El.
      * eapply rtc_l; [|apply steps_load_tools].
        unfold Multi.steps_to, Multi.step. simpl. by rewrite El.
      * apply rtc_once. unfold Multi.steps_to, Multi.step. simpl. by rewrite El.
    + apply rtc_once. unfold Multi.steps_to, Multi.step. simpl. by rewrite Ec, Ea.
  - apply rtc_once. unfold Multi.steps_to, Multi.step. simpl. by rewrite Ec.
Qed.

(** The loop of [startup_event] is a run of the transition system. *)
Lemma steps_load_servers servers st :
  rtc Multi.steps_to (st, Multi.AtServers servers)
    (Multi.load_servers servers st, Multi.Finished).
Proof.
  revert st. induction servers as [|s servers IH]; intros st.
  - by apply rtc_once.
  - etrans; [apply steps_load_server|]. apply IH.
Qed.

Lemma startup_is_reachable :
  Multi.reachable Multi.MCP_SERVERS (Multi.startup_event Multi.initial, Multi.Finished).
Proof. apply steps_load_servers. Qed.

Lemma invariant_initial servers :
  startup_invariant (Multi.initial, Multi.AtServers servers).
Proof. split; [|done]. simpl. by rewrite dom_empty_L. Qed.

Lemma invariant_step c c' :
  Multi.steps_to c c' -> startup_invariant c -> startup_invariant c'.
Proof.
  destruct c as [st k]. unfold Multi.steps_to, Multi.step, startup_invariant. simpl.
  intros Hstep [Hsub Hk].
  destruct k as [[|s rest]|name client rest|name [|tool tools] rest
                |name tool_name td tools rest|].
  - by injection Hstep as <-.
  - destruct (new_client _) as [c|]; [|by injection Hstep as <-].
    destruct (Mcp.aenter c); injection Hstep as <-; simpl; [|done].
    rewrite dom_insert_L. split.
    + etrans; [exact Hsub | apply union_subseteq_r].
    + apply elem_of_union_l. by apply elem_of_singleton.
  - destruct (Mcp.list_tools_mcp client) as [tools|]; injection Hstep as <-; simpl; [|done].
    rewrite dom_insert_L. split; [|done].
    apply union_least; [by apply singleton_subseteq_l | exact Hsub].
  - by injection Hstep as <-.
  - destruct (Mcp.name tool) as [tool_name|]; [|by injection Hstep as <-].
    destruct (Multi.tools_cache st !! name) as [cache|] eqn:Ec;
      injection Hstep as <-; simpl; [|done].
    rewrite dom_insert_lookup_L by (by rewrite Ec). by split.
  - destruct (Multi.create_dynamic_endpoint _ _ _) as [r|]; by injection Hstep as <-.
  - discriminate Hstep.
Qed.

Lemma invariant_reachable servers c :
  Multi.reachable servers c -> startup_invariant c.
Proof.
  unfold Multi.reachable. revert c.
  apply (rtc_ind_r (fun c => startup_invariant c)).
  - apply invariant_initial.
  - intros y z _ Hstep Hy. by eapply invariant_step.
Qed.

End Steps.

(** C10. In every state the startup of the multi-backend variant passes
    through, every source with an entry in [tools_cache] -- and so every
    source of the root listing -- has an entry in [clients]. *)
Theorem cached_sources_are_connected `{Env} (servers : list Multi.server)
    (c : Multi.state * Multi.control) :
  Multi.reachable servers c ->
  dom (Multi.tools_cache c.1) ⊆ dom (Multi.clients c.1) /\
  forall e, e ∈ Multi.root c.1 -> is_Some (Multi.clients c.1 !! Multi.entry_server e).
Proof.
  intros [Hsub _]%invariant_reachable. split; [exact Hsub|].
  intros e He%multi_root_entry.
  apply (elem_of_dom (D := gset string)), Hsub, elem_of_dom, He.
Qed.

Lemma cached_sources_are_connected_witness :
  dom (Multi.tools_cache (@Multi.startup_event Demo.broken Multi.initial)) ⊆
    dom (Multi.clients (@Multi.startup_event Demo.broken Multi.initial)) /\
  forall e, e ∈ Multi.root (@Multi.startup_event Demo.broken Multi.initial) ->
    is_Some (Multi.clients (@Multi.startup_event Demo.broken Multi.initial)
               !! Multi.entry_server e).
Proof.
  exact (@cached_sources_are_connected Demo.broken Multi.MCP_SERVERS
           (@Multi.startup_event Demo.broken Multi.initial, Multi.Finished)
           (@startup_is_reachable Demo.broken)).
Defined.

(** The converse of C10 fails: a source whose discovery call raises stays in
    [clients] and never gets an entry in [tools_cache]. *)
Lemma connected_source_need_not_be_cached :
  Multi.reachable (H := Demo.broken) Multi.MCP_SERVERS (Demo.multi_broken, Multi.Finished) /\
  Multi.clients Demo.multi_broken !! "test tools" = Some Demo.mute_client /\
  Multi.tools_cache Demo.multi_broken !! "test tools" = None.
Proof.
  split; [exact (@startup_is_reachable Demo.broken)|].
  split; vm_compute; reflexivity.
Qed.

(** ** The bound handler, end to end *)

(** A request that omits an optional parameter causes no invocation whose
    arguments hold its key. *)
Lemma serve_omits_optional `{Env} (r : route Multi.closure) (st : Multi.state)
    (query : gmap string string) (p : string) (par : parameter) :
  signature r !! p = Some par ->
  default_value par = DefaultNone ->
  query !! p = None ->
  forall inv, inv ∈ (Multi.serve st r query).2 -> inv.2 !! p = None.
Proof.
  intros Hsig Hdef Hq inv. unfold Multi.serve, dispatch.
  destruct (bind_errors (signature r) query) as [|e errs].
  - unfold Multi.tool_endpoint. intros ->%multi_call_trace_args. simpl.
    apply (passes_excludes (bind_kwargs (signature r) query)); [apply multi_drop_none|].
    right. by apply bind_kwargs_optional with par.
  - by intros ?%elem_of_nil.
Qed.

(** The calculator behind the multi-backend gateway: [a=2&b=3] on the route
    of [add] is answered with [{"result": 5}]. *)
Lemma demo_add_two_three :
  exists r,
    Multi.find_route Demo.multi_started "/add" = Some r /\
    (@Multi.serve Demo.env Demo.multi_started r (<["a" := "2"]> (<["b" := "3"]> ∅))).1 =
      Ok (result_of (VInt 5)).
Proof.
  destruct (Multi.find_route Demo.multi_started "/add") as [r|] eqn:Er.
  - exists r. split; [reflexivity|].
    vm_compute in Er. injection Er as <-. vm_compute. reflexivity.
  - vm_compute in Er. discriminate Er.
Qed.

(** ** Further properties of the startup *)


(** Loading one source leaves the entries of every other source as they were,
    in [clients] and in [tools_cache], and adds routes for that source only. *)
Theorem other_sources_untouched `{Env} (st : Multi.state) (s : Multi.server) (k : string) :
  k <> Multi.server_name s ->
  Multi.clients (Multi.load_server st s) !! k = Multi.clients st !! k /\
  Multi.tools_cache (Multi.load_server st s) !! k = Multi.tools_cache st !! k /\
  forall r, r ∈ Multi.routes (Multi.load_server st s) ->
            r ∈ Multi.routes st \/ (endpoint r).2 <> k.
Proof.
  intros Hk. split; [by apply multi_load_server_clients_other|].
  split; [by apply multi_load_server_cache_other|].
  intros r [Hr|Hr]%multi_load_server_routes; [by left|]. right. by rewrite Hr.
Qed.

Lemma other_sources_untouched_witness :
  Multi.clients (@Multi.load_server Demo.env Multi.initial
     {| Multi.server_name := "calculator tools";
        Multi.server_url := "http://127.0.0.1:8002/mcp2" |}) !! "test tools" = None /\
  Multi.tools_cache (@Multi.load_server Demo.env Multi.initial
     {| Multi.server_name := "calculator tools";
        Multi.server_url := "http://127.0.0.1:8002/mcp2" |}) !! "test tools" = None.
Proof.
  destruct (@other_sources_untouched Demo.env Multi.initial
              {| Multi.server_name := "calculator tools";
                 Multi.server_url := "http://127.0.0.1:8002/mcp2" |} "test tools")
    as (Hc & Ht & _); [discriminate|].
  split; [exact Hc | exact Ht].
Defined.

(** * More of the gateway *)

(** ** The signature [create_dynamic_endpoint] synthesizes *)


Section Signatures.
Context `{Env}.

Lemma multi_created tool_name td server_name r :
  Multi.create_dynamic_endpoint tool_name td server_name = Some r ->
  r = {| path := "/" ++ tool_name;
         summary := td_title td;
         route_description := td_description td;
         tags := [server_name];
         signature := parameter_of <$> Multi.build_param_info (td_inputSchema td);
         endpoint := (tool_name, server_name) |}.
Proof.
  unfold Multi.create_dynamic_endpoint, Multi.create_signature.
  destruct (forallb _ _); [|discriminate]. by intros [= <-].
Qed.

Lemma single_created tool_name td r :
  Single.create_dynamic_endpoint tool_name td = Some r ->
  r = {| path := "/" ++ tool_name;
         summary := Some (Single.title_or (td_title td) tool_name);
         route_description := td_description td;
         tags := ["FastMCP Tools"];
         signature := parameter_of <$> Single.build_param_info (td_inputSchema td);
         endpoint := tool_name |}.
Proof.
  unfold Single.create_dynamic_endpoint, Single.create_signature.
  destruct (forallb _ _); [|discriminate]. by intros [= <-].
Qed.

Lemma multi_info_lookup input p :
  Multi.build_param_info input !! p =
  (fun sch =>
     {| info_type := Multi.get_python_type (default "string" (Mcp.p_type sch));
        info_description := default (p ++ " parameter") (Mcp.p_description sch);
        info_title := default p (Mcp.p_title sch);
        info_required := bool_decide (p ∈ Mcp.required input) |})
    <$> Mcp.properties input !! p.
Proof.
  unfold Multi.build_param_info. rewrite map_lookup_imap.
  by destruct (Mcp.properties input !! p).
Qed.

Lemma single_info_lookup input p :
  Single.build_param_info input !! p =
  (fun sch =>
     {| info_type := Single.get_python_type (default "string" (Mcp.p_type sch));
        info_description := default p (Mcp.p_description sch);
        info_title := default p (Mcp.p_title sch);
        info_required := bool_decide (p ∈ Mcp.required input) |})
    <$> Mcp.properties input !! p.
Proof.
  unfold Single.build_param_info. rewrite map_lookup_imap.
  by destruct (Mcp.properties input !! p).
Qed.

Lemma parameter_required info :
  (default_value (parameter_of info) = Ellipsis <-> info_required info = true) /\
  (nullable (parameter_of info) = false <-> info_required info = true).
Proof. unfold parameter_of. simpl. by destruct (info_required info). Qed.


End Signatures.

Section SignatureContract.
Context `{Env}.

Lemma multi_info_is_Some input p :
  is_Some (Multi.build_param_info input !! p) <-> is_Some (Mcp.properties input !! p).
Proof. rewrite multi_info_lookup. apply fmap_is_Some. Qed.

Lemma single_info_is_Some input p :
  is_Some (Single.build_param_info input !! p) <-> is_Some (Mcp.properties input !! p).
Proof. rewrite single_info_lookup. apply fmap_is_Some. Qed.

Lemma multi_signature_dom input :
  dom (parameter_of <$> Multi.build_param_info input) = dom (Mcp.properties input).
Proof.
  apply set_eq. intros p. rewrite dom_fmap, !elem_of_dom. apply multi_info_is_Some.
Qed.

Lemma single_signature_dom input :
  dom (parameter_of <$> Single.build_param_info input) = dom (Mcp.properties input).
Proof.
  apply set_eq. intros p. rewrite dom_fmap, !elem_of_dom. apply single_info_is_Some.
Qed.

End SignatureContract.

(** The handler bound for a tool asks for exactly the properties of the
    tool's input schema: a parameter is required (default [...], not
    nullable) exactly when its name is listed under ["required"], its type is
    what [get_python_type] makes of the property's ["type"] (["string"] when
    there is none), and the route is registered under ["/" + tool_name]. *)
Theorem signature_follows_schema `{Env} (td : tool_data) (tool_name : string) :
  (forall server_name r,
     Multi.create_dynamic_endpoint tool_name td server_name = Some r ->
     path r = "/" ++ tool_name /\
     endpoint r = (tool_name, server_name) /\
     dom (signature r) = dom (Mcp.properties (td_inputSchema td)) /\
     forall p par,
       signature r !! p = Some par ->
       (default_value par = Ellipsis <-> p ∈ Mcp.required (td_inputSchema td)) /\
       (nullable par = false <-> p ∈ Mcp.required (td_inputSchema td)) /\
       exists sch,
         Mcp.properties (td_inputSchema td) !! p = Some sch /\
         annotation par = Multi.get_python_type (default "string" (Mcp.p_type sch))) /\
  (forall r,
     Single.create_dynamic_endpoint tool_name td = Some r ->
     path r = "/" ++ tool_name /\
     endpoint r = tool_name /\
     dom (signature r) = dom (Mcp.properties (td_inputSchema td)) /\
     forall p par,
       signature r !! p = Some par ->
       (default_value par = Ellipsis <-> p ∈ Mcp.required (td_inputSchema td)) /\
       (nullable par = false <-> p ∈ Mcp.required (td_inputSchema td)) /\
       exists sch,
         Mcp.properties (td_inputSchema td) !! p = Some sch /\
         annotation par = Single.get_python_type (default "string" (Mcp.p_type sch))).
Proof.
  split.
  - intros server_name r ->%multi_created. simpl.
    split; [done|]. split; [done|]. split; [apply multi_signature_dom|].
    intros p par. rewrite lookup_fmap, multi_info_lookup.
    destruct (Mcp.properties (td_inputSchema td) !! p) as [sch|]; [|discriminate].
    simpl. intros [= <-].
    destruct (parameter_required
      {| info_type := Multi.get_python_type (default "string" (Mcp.p_type sch));
         info_description := default (p ++ " parameter") (Mcp.p_description sch);
         info_title := default p (Mcp.p_title sch);
         info_required := bool_decide (p ∈ Mcp.required (td_inputSchema td)) |})
      as [Hd Hn].
    cbn [info_required] in Hd, Hn. rewrite bool_decide_eq_true in Hd, Hn.
    split; [exact Hd|]. split; [exact Hn|]. by exists sch.
  - intros r ->%single_created. simpl.
    split; [done|]. split; [done|]. split; [apply single_signature_dom|].
    intros p par. rewrite lookup_fmap, single_info_lookup.
    destruct (Mcp.properties (td_inputSchema td) !! p) as [sch|]; [|discriminate].
    simpl. intros [= <-].
    destruct (parameter_required
      {| info_type := Single.get_python_type (default "string" (Mcp.p_type sch));
         info_description := default p (Mcp.p_description sch);
         info_title := default p (Mcp.p_title sch);
         info_required := bool_decide (p ∈ Mcp.required (td_inputSchema td)) |})
      as [Hd Hn].
    cbn [info_required] in Hd, Hn. rewrite bool_decide_eq_true in Hd, Hn.
    split; [exact Hd|]. split; [exact Hn|]. by exists sch.
Qed.

Lemma signature_follows_schema_witness :
  exists r,
    @Multi.create_dynamic_endpoint Demo.env "greet" Demo.greet_data "calculator tools" = Some r /\
    path r = "/greet" /\
    dom (signature r) = dom (Mcp.properties (td_inputSchema Demo.greet_data)).
Proof.
  destruct demo_greet_route as [r Hr]. exists r.
  destruct (proj1 (@signature_follows_schema Demo.env Demo.greet_data "greet")
              "calculator tools" r Hr) as (Hp & _ & Hd & _).
  split; [exact Hr|]. split; [exact Hp | exact Hd].
Defined.


(** ** What the startup registers *)

Section Registry.
Context `{Env}.

Lemma multi_load_server_client st s k c :
  Multi.clients (Multi.load_server st s) !! k = Some c ->
  Multi.clients st !! k = Some c \/
  (k = Multi.server_name s /\ new_client (Multi.server_url s) = Some c /\
   Mcp.aenter c = true).
Proof.
  unfold Multi.load_server.
  destruct (new_client (Multi.server_url s)) as [c'|] eqn:Ec; [|by left].
  destruct (Mcp.aenter c') eqn:Ea; [|by left].
  assert (Hins : <[Multi.server_name s := c']> (Multi.clients st) !! k = Some c ->
                 Multi.clients st !! k = Some c \/
                 (k = Multi.server_name s /\ Some c' = Some c /\ Mcp.aenter c = true)).
  { destruct (decide (k = Multi.server_name s)) as [->|Hne].
    - rewrite lookup_insert_eq. intros [= <-]. by right.
    - rewrite lookup_insert_ne by done. by left. }
  destruct (Mcp.list_tools_mcp c') as [tools|]; simpl.
  - rewrite multi_load_tools_clients. simpl. exact Hins.
  - exact Hins.
Qed.

Lemma multi_load_servers_client servers st k c :
  Multi.clients (Multi.load_servers servers st) !! k = Some c ->
  Multi.clients st !! k = Some c \/
  (Mcp.aenter c = true /\
   exists s, s ∈ servers /\ Multi.server_name s = k /\
             new_client (Multi.server_url s) = Some c).
Proof.
  revert st. induction servers as [|s servers IH]; intros st; [by left|].
  change (Multi.load_servers (s :: servers) st)
    with (Multi.load_servers servers (Multi.load_server st s)).
  intros [Hc|(Ha & s' & Hin & Hn & Hu)]%IH.
  - apply multi_load_server_client in Hc as [Hc|(-> & Hu & Ha)]; [by left|].
    right. split; [done|]. exists s. split; [by left | done].
  - right. split; [done|]. exists s'. split; [by right | done].
Qed.

End Registry.

Lemma registered_clients_entered_aux `{Env} (servers : list Multi.server)
    (k : string) (c : Mcp.client) :
  Multi.clients (Multi.load_servers servers Multi.initial) !! k = Some c ->
  Mcp.aenter c = true /\
  exists s, s ∈ servers /\ Multi.server_name s = k /\
            new_client (Multi.server_url s) = Some c.
Proof.
  intros [Hc|Hc]%multi_load_servers_client; [|exact Hc].
  simpl in Hc. by rewrite lookup_empty in Hc.
Qed.

(** Every connection the multi-backend startup leaves in [clients] was made
    for a configured server of that name and was entered successfully. *)
Theorem registered_clients_are_entered `{Env} (servers : list Multi.server)
    (k : string) (c : Mcp.client) :
  Multi.clients (Multi.load_servers servers Multi.initial) !! k = Some c ->
  Mcp.aenter c = true /\
  exists s, s ∈ servers /\ Multi.server_name s = k /\
            new_client (Multi.server_url s) = Some c.
Proof. apply registered_clients_entered_aux. Qed.

Lemma demo_loaded_client :
  Multi.clients (@Multi.load_servers Demo.env Multi.MCP_SERVERS Multi.initial)
    !! "calculator tools" = Some Demo.calculator_client.
Proof. vm_compute. reflexivity. Qed.

Lemma registered_clients_are_entered_witness :
  Mcp.aenter Demo.calculator_client = true /\
  exists s, s ∈ Multi.MCP_SERVERS /\ Multi.server_name s = "calculator tools" /\
            @new_client Demo.env (Multi.server_url s) = Some Demo.calculator_client.
Proof.
  exact (@registered_clients_are_entered Demo.env Multi.MCP_SERVERS "calculator tools"
           Demo.calculator_client demo_loaded_client).
Defined.

(** ** A discovery response whose tools all bind *)

Section HappyPath.
Context `{Env}.

Lemma multi_bound_inv server_name tool r :
  multi_bound server_name tool = Some r ->
  exists tool_name,
    Mcp.name tool = Some tool_name /\
    Multi.create_dynamic_endpoint tool_name (data_of tool_name tool) server_name = Some r.
Proof.
  unfold multi_bound. destruct (Mcp.name tool) as [n|]; [|discriminate].
  intros Hr. by exists n.
Qed.

Lemma single_bound_inv tool r :
  single_bound tool = Some r ->
  exists tool_name,
    Mcp.name tool = Some tool_name /\
    Single.create_dynamic_endpoint tool_name (data_of tool_name tool) = Some r.
Proof.
  unfold single_bound. destruct (Mcp.name tool) as [n|]; [|discriminate].
  intros Hr. by exists n.
Qed.

Lemma cache_tool_named cache tool n :
  Mcp.name tool = Some n -> cache_tool cache tool = <[n := data_of n tool]> cache.
Proof. intros Hn. unfold cache_tool. by rewrite Hn. Qed.

Lemma multi_load_tools_all name tools rs :
  Forall2 (fun tool r => multi_bound name tool = Some r) tools rs ->
  forall st cache,
    Multi.tools_cache st !! name = Some cache ->
    Multi.load_tools name tools st =
      {| Multi.clients := Multi.clients st;
         Multi.tools_cache := <[name := foldl cache_tool cache tools]> (Multi.tools_cache st);
         Multi.routes := Multi.routes st ++ rs |}.
Proof.
  induction 1 as [|tool r tools rs Hb _ IH]; intros st cache Hc.
  - simpl. rewrite app_nil_r, insert_id by done. by destruct st.
  - apply multi_bound_inv in Hb as (n & Hn & Hr).
    simpl. rewrite Hn, Hc.
    change {| td_name := n; td_title := Mcp.title tool;
              td_description := Mcp.description tool;
              td_inputSchema := Mcp.inputSchema tool;
              td_outputSchema := Mcp.outputSchema tool |} with (data_of n tool).
    rewrite Hr. erewrite IH; [|cbn; apply lookup_insert_eq].
    cbn. rewrite insert_insert_eq, <- app_assoc.
    by rewrite (cache_tool_named _ _ _ Hn).
Qed.

Lemma single_load_tools_all tools rs :
  Forall2 (fun tool r => single_bound tool = Some r) tools rs ->
  forall st,
    Single.load_tools tools st =
      {| Single.client := Single.client st;
         Single.tools_cache := foldl cache_tool (Single.tools_cache st) tools;
         Single.routes := Single.routes st ++ rs |}.
Proof.
  induction 1 as [|tool r tools rs Hb _ IH]; intros st.
  - simpl. rewrite app_nil_r. by destruct st.
  - apply single_bound_inv in Hb as (n & Hn & Hr).
    simpl. rewrite Hn.
    change {| td_name := n; td_title := Mcp.title tool;
              td_description := Mcp.description tool;
              td_inputSchema := Mcp.inputSchema tool;
              td_outputSchema := Mcp.outputSchema tool |} with (data_of n tool).
    rewrite Hr, IH. cbn. rewrite <- app_assoc.
    by rewrite (cache_tool_named _ _ _ Hn).
Qed.

Lemma cache_tool_dom cache tools :
  dom (foldl cache_tool cache tools) =
  dom cache ∪ list_to_set (omap Mcp.name tools).
Proof.
  revert cache. induction tools as [|tool tools IH]; intros cache; simpl.
  - by rewrite union_empty_r_L.
  - rewrite IH. unfold cache_tool. destruct (Mcp.name tool) as [n|]; simpl; [|done].
    rewrite dom_insert_L. by rewrite (union_comm_L {[n]}), union_assoc_L.
Qed.

End HappyPath.

(** When every tool of a discovery response has a name and binds, loading the
    response registers one route per tool, in the order of the response and
    after the routes already there, and caches every tool: the keys of the
    cache grow by exactly the names of the response. *)
Theorem bindable_tools_are_all_loaded `{Env} (tools : list Mcp.tool) :
  (forall name rs st cache,
     mapM (multi_bound name) tools = Some rs ->
     Multi.tools_cache st !! name = Some cache ->
     Multi.routes (Multi.load_tools name tools st) = (Multi.routes st ++ rs)%list /\
     length rs = length tools /\
     exists cache',
       Multi.tools_cache (Multi.load_tools name tools st) !! name = Some cache' /\
       dom cache' = dom cache ∪ list_to_set (omap Mcp.name tools)) /\
  (forall rs st,
     mapM single_bound tools = Some rs ->
     Single.routes (Single.load_tools tools st) = (Single.routes st ++ rs)%list /\
     length rs = length tools /\
     dom (Single.tools_cache (Single.load_tools tools st)) =
       dom (Single.tools_cache st) ∪ list_to_set (omap Mcp.name tools)).
Proof.
  split.
  - intros name rs st cache Hrs%mapM_Some Hc.
    rewrite (multi_load_tools_all name tools rs Hrs st cache Hc). cbn.
    split; [done|]. split; [symmetry; by eapply Forall2_length|].
    exists (foldl cache_tool cache tools). split; [apply lookup_insert_eq|].
    apply cache_tool_dom.
  - intros rs st Hrs%mapM_Some.
    rewrite (single_load_tools_all tools rs Hrs st). cbn.
    split; [done|]. split; [symmetry; by eapply Forall2_length|].
    apply cache_tool_dom.
Qed.

Lemma demo_connected_cache :
  Multi.tools_cache demo_connected !! "calculator tools" = Some ∅.
Proof. vm_compute. reflexivity. Qed.

Lemma demo_calculator_binds :
  exists rs, mapM (@multi_bound Demo.env "calculator tools") Demo.calculator_tools = Some rs.
Proof.
  destruct (mapM (@multi_bound Demo.env "calculator tools") Demo.calculator_tools)
    as [rs|] eqn:E; [by exists rs|].
  vm_compute in E. discriminate E.
Qed.

Lemma bindable_tools_are_all_loaded_witness :
  exists rs,
    mapM (@multi_bound Demo.env "calculator tools") Demo.calculator_tools = Some rs /\
    Multi.routes (@Multi.load_tools Demo.env "calculator tools" Demo.calculator_tools
                    demo_connected) = (Multi.routes demo_connected ++ rs)%list /\
    length rs = length Demo.calculator_tools.
Proof.
  destruct demo_calculator_binds as [rs Hrs]. exists rs.
  destruct (proj1 (@bindable_tools_are_all_loaded Demo.env Demo.calculator_tools)
              "calculator tools" rs demo_connected ∅ Hrs demo_connected_cache)
    as (Hr & Hl & _).
  split; [exact Hrs|]. split; [exact Hr | exact Hl].
Defined.

(** ** Every route serves a cached tool *)

Section RoutesCached.
Context `{Env}.

Lemma multi_routes_cached_insert st name cache n td :
  multi_routes_cached st ->
  Multi.tools_cache st !! name = Some cache ->
  multi_routes_cached
    {| Multi.clients := Multi.clients st;
       Multi.tools_cache := <[name := <[n := td]> cache]> (Multi.tools_cache st);
       Multi.routes := Multi.routes st |}.
Proof.
  intros Hst Hc r Hr. destruct (Hst r Hr) as (cache0 & td0 & Hc0 & Ht0 & Hp). simpl.
  destruct (decide ((endpoint r).2 = name)) as [Heq|Hne].
  - rewrite Heq in *. rewrite Hc in Hc0. injection Hc0 as <-.
    rewrite lookup_insert_eq.
    destruct (decide ((endpoint r).1 = n)) as [Hn|Hn].
    + exists (<[n := td]> cache), td.
      split; [done|]. split; [rewrite Hn; apply lookup_insert_eq | exact Hp].
    + exists (<[n := td]> cache), td0.
      split; [done|]. split; [by rewrite lookup_insert_ne | exact Hp].
  - exists cache0, td0. by rewrite lookup_insert_ne.
Qed.

Lemma multi_load_tools_routes_cached name tools st :
  multi_routes_cached st -> multi_routes_cached (Multi.load_tools name tools st).
Proof.
  revert st. induction tools as [|tool tools IH]; intros st Hst; simpl; [done|].
  destruct (Mcp.name tool) as [n|]; [|done].
  destruct (Multi.tools_cache st !! name) as [cache|] eqn:Ec; [|done].
  pose proof (multi_routes_cached_insert st name cache n
                {| td_name := n; td_title := Mcp.title tool;
                   td_description := Mcp.description tool;
                   td_inputSchema := Mcp.inputSchema tool;
                   td_outputSchema := Mcp.outputSchema tool |} Hst Ec) as Hst1.
  destruct (Multi.create_dynamic_endpoint _ _ _) as [r|] eqn:Er; [|exact Hst1].
  apply IH. intros r' Hr'. simpl in Hr'.
  apply elem_of_app in Hr' as [Hr'|Hr'].
  - exact (Hst1 r' Hr').
  - apply list_elem_of_singleton in Hr' as ->. apply multi_created in Er as ->. simpl.
    eexists _, _. split; [apply lookup_insert_eq|]. split; [apply lookup_insert_eq | done].
Qed.

Lemma multi_load_server_routes_cached st s :
  multi_routes_cached st ->
  (forall r, r ∈ Multi.routes st -> (endpoint r).2 <> Multi.server_name s) ->
  multi_routes_cached (Multi.load_server st s).
Proof.
  intros Hst Hfresh. unfold Multi.load_server.
  destruct (new_client _) as [c|]; [|done].
  destruct (Mcp.aenter c); [|done].
  destruct (Mcp.list_tools_mcp c) as [tools|]; [|exact Hst].
  apply multi_load_tools_routes_cached. intros r Hr. simpl in Hr.
  destruct (Hst r Hr) as (cache & td & Hc & Ht & Hp).
  exists cache, td. simpl. rewrite lookup_insert_ne by (symmetry; by apply Hfresh). done.
Qed.

Lemma multi_load_servers_routes_cached servers st :
  NoDup (Multi.server_name <$> servers) ->
  multi_routes_cached st ->
  (forall r, r ∈ Multi.routes st -> (endpoint r).2 ∉ Multi.server_name <$> servers) ->
  multi_routes_cached (Multi.load_servers servers st).
Proof.
  revert st. induction servers as [|s servers IH]; intros st Hnd Hst Hfresh; [done|].
  rewrite fmap_cons in Hnd. apply NoDup_cons in Hnd as [Hs Hnd].
  change (Multi.load_servers (s :: servers) st)
    with (Multi.load_servers servers (Multi.load_server st s)).
  apply IH; [done| |].
  - apply multi_load_server_routes_cached; [done|].
    intros r Hr Heq. apply (Hfresh r Hr). rewrite Heq, fmap_cons. by left.
  - intros r [Hr|Hr]%multi_load_server_routes.
    + intros Hin. apply (Hfresh r Hr). rewrite fmap_cons. by right.
    + by rewrite Hr.
Qed.

Lemma single_load_tools_routes_cached tools st :
  single_routes_cached st -> single_routes_cached (Single.load_tools tools st).
Proof.
  revert st. induction tools as [|tool tools IH]; intros st Hst; simpl; [done|].
  destruct (Mcp.name tool) as [n|]; [|done].
  assert (Hst1 : single_routes_cached
            {| Single.client := Single.client st;
               Single.tools_cache :=
                 <[n := {| td_name := n; td_title := Mcp.title tool;
                           td_description := Mcp.description tool;
                           td_inputSchema := Mcp.inputSchema tool;
                           td_outputSchema := Mcp.outputSchema tool |}]>
                   (Single.tools_cache st);
               Single.routes := Single.routes st |}).
  { intros r Hr. destruct (Hst r Hr) as (td0 & Ht0 & Hp). simpl.
    destruct (decide (endpoint r = n)) as [Heq|Hn].
    - eexists. split; [rewrite Heq; apply lookup_insert_eq | exact Hp].
    - exists td0. by rewrite lookup_insert_ne. }
  destruct (Single.create_dynamic_endpoint _ _) as [r|] eqn:Er; [|exact Hst1].
  apply IH. intros r' Hr'. simpl in Hr'.
  apply elem_of_app in Hr' as [Hr'|Hr'].
  - exact (Hst1 r' Hr').
  - apply list_elem_of_singleton in Hr' as ->. apply single_created in Er as ->. simpl.
    eexists. split; [apply lookup_insert_eq | done].
Qed.

Lemma single_startup_routes_cached :
  single_routes_cached (Single.startup_event Single.initial).
Proof.
  assert (H0 : forall c, single_routes_cached
            {| Single.client := c; Single.tools_cache := ∅; Single.routes := [] |}).
  { intros c r Hr. by apply elem_of_nil in Hr. }
  unfold Single.startup_event.
  destruct (new_client Single.MCP_URL) as [c|]; [|apply H0].
  destruct (Mcp.aenter c); [|apply H0].
  destruct (Mcp.list_tools_mcp c) as [tools|]; [|apply H0].
  apply single_load_tools_routes_cached, H0.
Qed.

End RoutesCached.

Lemma multi_listed st k cache n td :
  Multi.tools_cache st !! k = Some cache -> cache !! n = Some td ->
  exists e t,
    e ∈ Multi.root st /\ Multi.entry_server e = k /\
    t ∈ Multi.entry_tools e /\ entry_name t = n /\ entry_endpoint t = "/" ++ n.
Proof.
  intros Hk Hn.
  exists {| Multi.entry_server := k;
            Multi.entry_tools := Multi.list_tool <$> map_to_list cache;
            Multi.entry_total := length (Multi.list_tool <$> map_to_list cache) |},
         (Multi.list_tool (n, td)).
  split; [|split; [done|split; [|done]]].
  - unfold Multi.root. apply list_elem_of_fmap. exists (k, cache).
    split; [done|]. by apply elem_of_map_to_list.
  - simpl. apply list_elem_of_fmap. exists (n, td). split; [done|].
    by apply elem_of_map_to_list.
Qed.

Lemma single_listed st n td :
  Single.tools_cache st !! n = Some td ->
  exists t, t ∈ Single.available_tools (Single.root st) /\
            entry_name t = n /\ entry_endpoint t = "GET /" ++ n.
Proof.
  intros Hn. exists (Single.list_tool (n, td)). split; [|done].
  unfold Single.root. simpl. apply list_elem_of_fmap. exists (n, td).
  split; [done|]. by apply elem_of_map_to_list.
Qed.

(** Every endpoint bound at startup is advertised by the root listing: the
    tool a route serves is listed, under the route's source and with the
    route's path. For the multi-backend variant this needs the configured
    source names to be distinct, since loading a source empties the cache
    entry of its name. *)
Theorem bound_routes_are_listed `{Env} :
  (forall servers r,
     NoDup (Multi.server_name <$> servers) ->
     r ∈ Multi.routes (Multi.load_servers servers Multi.initial) ->
     exists e t,
       e ∈ Multi.root (Multi.load_servers servers Multi.initial) /\
       Multi.entry_server e = (endpoint r).2 /\
       t ∈ Multi.entry_tools e /\
       entry_name t = (endpoint r).1 /\ entry_endpoint t = path r) /\
  (forall r,
     r ∈ Single.routes (Single.startup_event Single.initial) ->
     exists t,
       t ∈ Single.available_tools (Single.root (Single.startup_event Single.initial)) /\
       entry_name t = endpoint r /\ entry_endpoint t = "GET " ++ path r).
Proof.
  split.
  - intros servers r Hnd Hr.
    assert (Hinv : multi_routes_cached (Multi.load_servers servers Multi.initial)).
    { apply multi_load_servers_routes_cached; [done| |].
      - intros r' Hr'. by apply elem_of_nil in Hr'.
      - intros r' Hr'. by apply elem_of_nil in Hr'. }
    destruct (Hinv r Hr) as (cache & td & Hc & Ht & Hp).
    destruct (multi_listed _ _ _ _ _ Hc Ht) as (e & t & He & Hs & Hin & Hn & Hend).
    exists e, t. by rewrite Hp.
  - intros r Hr.
    destruct (single_startup_routes_cached r Hr) as (td & Ht & Hp).
    destruct (single_listed _ _ _ Ht) as (t & Hin & Hn & Hend).
    exists t. by rewrite Hp.
Qed.

Lemma demo_servers_distinct : NoDup (Multi.server_name <$> Multi.MCP_SERVERS).
Proof. apply (bool_decide_unpack _). vm_compute. exact I. Qed.

Lemma demo_add_route :
  exists r, r ∈ Multi.routes (@Multi.load_servers Demo.env Multi.MCP_SERVERS Multi.initial) /\
            path r = "/add".
Proof.
  destruct (Multi.find_route (@Multi.load_servers Demo.env Multi.MCP_SERVERS Multi.initial)
              "/add") as [r|] eqn:E.
  - exists r. unfold Multi.find_route in E. apply find_some in E as [Hin Hp].
    split; [by apply list_elem_of_In|]. by apply String.eqb_eq in Hp.
  - vm_compute in E. discriminate E.
Qed.

Lemma bound_routes_are_listed_witness :
  exists r e t,
    path r = "/add" /\
    e ∈ Multi.root (@Multi.load_servers Demo.env Multi.MCP_SERVERS Multi.initial) /\
    Multi.entry_server e = (endpoint r).2 /\
    t ∈ Multi.entry_tools e /\
    entry_name t = (endpoint r).1 /\ entry_endpoint t = path r.
Proof.
  destruct demo_add_route as (r & Hr & Hp).
  destruct (proj1 (@bound_routes_are_listed Demo.env) Multi.MCP_SERVERS r
              demo_servers_distinct Hr) as (e & t & He).
  exists r, e, t. split; [exact Hp | exact He].
Defined.

(** ** The root listings *)

Lemma multi_root_servers st :
  Multi.entry_server <$> Multi.root st = (map_to_list (Multi.tools_cache st)).*1.
Proof.
  unfold Multi.root. rewrite <- list_fmap_compose. by apply list_fmap_ext.
Qed.

Lemma multi_list_tool_names (cache : gmap string tool_data) :
  entry_name <$> (Multi.list_tool <$> map_to_list cache) = (map_to_list cache).*1.
Proof. rewrite <- list_fmap_compose. by apply list_fmap_ext. Qed.

Lemma single_list_tool_names (cache : gmap string tool_data) :
  entry_name <$> (Single.list_tool <$> map_to_list cache) = (map_to_list cache).*1.
Proof. rewrite <- list_fmap_compose. by apply list_fmap_ext. Qed.

(** The root listing of the multi-backend variant has one entry per cached
    source, each source once; an entry lists each cached tool of its source
    once, and its total is the number of those tools. The single-backend
    listing lists each cached tool once, and its total is their number. *)
Theorem root_lists_the_cache :
  (forall st : Multi.state,
     NoDup (Multi.entry_server <$> Multi.root st) /\
     length (Multi.root st) = size (Multi.tools_cache st) /\
     forall e, e ∈ Multi.root st ->
       exists cache,
         Multi.tools_cache st !! Multi.entry_server e = Some cache /\
         Multi.entry_total e = size cache /\
         length (Multi.entry_tools e) = size cache /\
         NoDup (entry_name <$> Multi.entry_tools e) /\
         forall n, n ∈ entry_name <$> Multi.entry_tools e <-> is_Some (cache !! n)) /\
  (forall st : Single.state,
     Single.total (Single.root st) = size (Single.tools_cache st) /\
     length (Single.available_tools (Single.root st)) = size (Single.tools_cache st) /\
     NoDup (entry_name <$> Single.available_tools (Single.root st)) /\
     forall n, n ∈ entry_name <$> Single.available_tools (Single.root st) <->
               is_Some (Single.tools_cache st !! n)).
Proof.
  assert (Hkeys : forall (cache : gmap string tool_data) n,
            n ∈ (map_to_list cache).*1 <-> is_Some (cache !! n)).
  { intros cache n. rewrite list_elem_of_fmap. split.
    - intros ([k td] & -> & Hin). apply elem_of_map_to_list in Hin. simpl. by rewrite Hin.
    - intros [td Htd]. exists (n, td). split; [done|]. by apply elem_of_map_to_list. }
  split.
  - intros st. split; [rewrite multi_root_servers; apply NoDup_fst_map_to_list|].
    split; [unfold Multi.root; by rewrite length_fmap, length_map_to_list|].
    unfold Multi.root. intros e ([k cache] & -> & Hin)%list_elem_of_fmap.
    apply elem_of_map_to_list in Hin. exists cache. cbn.
    split; [done|]. rewrite length_fmap, length_map_to_list.
    split; [done|]. split; [done|]. rewrite multi_list_tool_names.
    split; [apply NoDup_fst_map_to_list | apply Hkeys].
  - intros st. unfold Single.root. cbn. rewrite length_fmap, length_map_to_list.
    split; [done|]. split; [done|]. rewrite single_list_tool_names.
    split; [apply NoDup_fst_map_to_list | apply Hkeys].
Qed.

Lemma root_lists_the_cache_witness :
  length (Multi.root Demo.multi_started) = size (Multi.tools_cache Demo.multi_started) /\
  Single.total (Single.root Demo.single_started) = size (Single.tools_cache Demo.single_started).
Proof.
  destruct root_lists_the_cache as [Hm Hs].
  split.
  - exact (proj1 (proj2 (Hm Demo.multi_started))).
  - exact (proj1 (Hs Demo.single_started)).
Defined.

(** ** Dropping the [None] arguments *)

Lemma filter_none_idempotent (params : gmap string value) :
  filter (fun kv : string * value => is_none kv.2 = false)
    (filter (fun kv : string * value => is_none kv.2 = false) params) =
  filter (fun kv : string * value => is_none kv.2 = false) params.
Proof.
  apply map_eq. intros k. rewrite !filter_none_lookup.
  destruct (params !! k) as [v|]; [|done].
  destruct (is_none v) eqn:Ev; [done|]. by rewrite Ev.
Qed.

Lemma filter_none_id (params : gmap string value) :
  (forall k, params !! k <> Some VNone) ->
  filter (fun kv : string * value => is_none kv.2 = false) params = params.
Proof.
  intros Hp. apply map_eq. intros k. rewrite filter_none_lookup.
  destruct (params !! k) as [v|] eqn:Ek; [|done].
  destruct (is_none v) eqn:Ev; [|done].
  apply is_none_true in Ev as ->. by destruct (Hp k).
Qed.

(** Dropping the [None] arguments is idempotent, changes nothing in a map
    that holds no [None], and never adds or alters an entry; the two variants
    drop the same entries. *)
Theorem drop_none_is_a_projection (params : gmap string value) :
  Multi.drop_none (Multi.drop_none params) = Multi.drop_none params /\
  ((forall k, params !! k <> Some VNone) -> Multi.drop_none params = params) /\
  Multi.drop_none params ⊆ params /\
  Single.drop_none params = Multi.drop_none params.
Proof.
  split; [apply filter_none_idempotent|]. split; [apply filter_none_id|].
  split; [apply map_filter_subseteq | reflexivity].
Qed.

Lemma demo_no_none k : (<["a" := VInt 2]> (<["b" := VInt 3]> ∅) : gmap string value) !! k <> Some VNone.
Proof.
  destruct (decide (k = "a")) as [->|Ha]; [by rewrite lookup_insert_eq|].
  rewrite lookup_insert_ne by done.
  destruct (decide (k = "b")) as [->|Hb]; [by rewrite lookup_insert_eq|].
  by rewrite lookup_insert_ne, lookup_empty.
Qed.

Lemma drop_none_is_a_projection_witness :
  Multi.drop_none (<["a" := VInt 2]> (<["b" := VInt 3]> ∅)) =
  <["a" := VInt 2]> (<["b" := VInt 3]> ∅).
Proof.
  exact (proj1 (proj2 (drop_none_is_a_projection (<["a" := VInt 2]> (<["b" := VInt 3]> ∅))))
           demo_no_none).
Defined.

(** ** Shutdown *)

Section Shutdown.
Context `{Env} `{Teardown}.

Lemma single_load_tools_client tools st :
  Single.client (Single.load_tools tools st) = Single.client st.
Proof.
  revert st. induction tools as [|tool tools IH]; intros st; simpl; [done|].
  destruct (Mcp.name tool) as [n|]; [|done].
  destruct (Single.create_dynamic_endpoint _ _) as [r|]; [|done].
  by rewrite IH.
Qed.

Lemma single_startup_client :
  Single.client (Single.startup_event Single.initial) = new_client Single.MCP_URL.
Proof.
  unfold Single.startup_event.
  destruct (new_client Single.MCP_URL) as [c|]; [|done].
  destruct (Mcp.aenter c); [|done].
  destruct (Mcp.list_tools_mcp c) as [tools|]; [|done].
  by rewrite single_load_tools_client.
Qed.

Lemma multi_shutdown_elem st c ok :
  (c, ok) ∈ Multi.shutdown_event st <->
  ok = aexit c /\ exists k, Multi.clients st !! k = Some c.
Proof.
  unfold Multi.shutdown_event. rewrite list_elem_of_fmap. split.
  - intros ([k c'] & [= -> ->] & Hin). apply elem_of_map_to_list in Hin.
    split; [done|]. by exists k.
  - intros (-> & k & Hk). exists (k, c). split; [done|]. by apply elem_of_map_to_list.
Qed.

End Shutdown.

(** At shutdown the multi-backend variant asks every connection of [clients]
    to exit, once each and whether or not an earlier exit raised, and after a
    startup these are connections that were entered. The single-backend
    variant asks its client to exit whenever the constructor had returned one,
    also when that client never managed to connect. *)
Theorem shutdown_exits_the_registered `{Env} `{Teardown} :
  (forall servers,
     length (Multi.shutdown_event (Multi.load_servers servers Multi.initial)) =
       size (Multi.clients (Multi.load_servers servers Multi.initial)) /\
     (forall k c,
        Multi.clients (Multi.load_servers servers Multi.initial) !! k = Some c ->
        (c, aexit c) ∈ Multi.shutdown_event (Multi.load_servers servers Multi.initial)) /\
     (forall c ok,
        (c, ok) ∈ Multi.shutdown_event (Multi.load_servers servers Multi.initial) ->
        Mcp.aenter c = true)) /\
  Single.shutdown_event (Single.startup_event Single.initial) =
    match new_client Single.MCP_URL with
    | Some c => [(c, aexit c)]
    | None => []
    end.
Proof.
  split.
  - intros servers. split; [|split].
    + unfold Multi.shutdown_event. by rewrite length_fmap, length_map_to_list.
    + intros k c Hk. apply multi_shutdown_elem. split; [done|]. by exists k.
    + intros c ok (_ & k & Hk)%multi_shutdown_elem.
      by destruct (registered_clients_entered_aux servers k c Hk).
  - unfold Single.shutdown_event. by rewrite single_startup_client.
Qed.

Lemma shutdown_exits_the_registered_witness :
  (Demo.calculator_client, @aexit demo_teardown Demo.calculator_client) ∈
    @Multi.shutdown_event demo_teardown
      (@Multi.load_servers Demo.env Multi.MCP_SERVERS Multi.initial).
Proof.
  exact (proj1 (proj2 (proj1 (@shutdown_exits_the_registered Demo.env demo_teardown)
                         Multi.MCP_SERVERS))
           "calculator tools" Demo.calculator_client demo_loaded_client).
Defined.

(** ** Exporting the tools of a server *)





(** [export_tools] exits the connection exactly when it had entered it --
    whether the discovery, the rows or the workbook then fail or not -- and
    never before entering; it answers with a workbook exactly when the
    connection was entered, the tools were listed, every tool had a name, the
    workbook was written and the exit returned. *)
Theorem export_exits_what_it_entered `{Env} `{Teardown} `{Spreadsheet} (url : string) :
  (forall c, Exit c ∈ (Multi.export_tools url).2 <->
             new_client url = Some c /\ Mcp.aenter c = true) /\
  (forall c, Enter c ∈ (Multi.export_tools url).2 <-> new_client url = Some c) /\
  (forall c, Exit c ∈ (Multi.export_tools url).2 ->
             (Multi.export_tools url).2 = [Enter c; Exit c]) /\
  (forall workbook,
     (Multi.export_tools url).1 = Some workbook <->
     exists c tools rows,
       new_client url = Some c /\ Mcp.aenter c = true /\
       Mcp.list_tools_mcp c = Some tools /\
       Multi.export_rows tools = Some rows /\
       to_excel rows = Some workbook /\
       aexit c = true).
Proof.
  unfold Multi.export_tools.
  destruct (new_client url) as [c|] eqn:Ec; [destruct (Mcp.aenter c) eqn:Ea|]; cbn.
  - split; [|split; [|split]].
    + intros c'. rewrite !elem_of_cons, elem_of_nil. split.
      * intros [?|[[= ->]|[]]]; [discriminate | done].
      * intros [[= ->] _]. right. by left.
    + intros c'. rewrite !elem_of_cons, elem_of_nil. split.
      * intros [[= ->]|[?|[]]]; [done | discriminate].
      * intros [= ->]. by left.
    + intros c'. rewrite !elem_of_cons, elem_of_nil.
      intros [?|[[= ->]|[]]]; [discriminate | done].
    + intros workbook. split.
      * destruct (aexit c) eqn:Ex; [|discriminate].
        destruct (Mcp.list_tools_mcp c) as [tools|] eqn:El; [|discriminate].
        destruct (Multi.export_rows tools) as [rows|] eqn:Er; [|discriminate].
        intros Hw. by exists c, tools, rows.
      * intros (c' & tools & rows & [= <-] & _ & -> & -> & -> & ->). done.
  - split; [|split; [|split]].
    + intros c'. rewrite elem_of_cons, elem_of_nil. split.
      * intros [?|[]]; discriminate.
      * intros [[= ->] Ha]. congruence.
    + intros c'. rewrite elem_of_cons, elem_of_nil. split.
      * intros [[= ->]|[]]; done.
      * intros [= ->]. by left.
    + intros c'. rewrite elem_of_cons, elem_of_nil. intros [?|[]]; discriminate.
    + intros workbook. split; [discriminate|].
      intros (c' & tools & rows & [= <-] & Ha & _). congruence.
  - split; [|split; [|split]].
    + intros c'. rewrite elem_of_nil. split; [done | intros [? _]; discriminate].
    + intros c'. rewrite elem_of_nil. split; [done | discriminate].
    + intros c'. by rewrite elem_of_nil.
    + intros workbook. split; [discriminate|].
      intros (c' & tools & rows & ? & _). discriminate.
Qed.

Lemma demo_calculator_url :
  @new_client Demo.env "http://127.0.0.1:8002/mcp2" = Some Demo.calculator_client.
Proof. vm_compute. reflexivity. Qed.

Lemma export_exits_what_it_entered_witness :
  Exit Demo.calculator_client ∈
    (@Multi.export_tools Demo.env demo_teardown demo_spreadsheet
       "http://127.0.0.1:8002/mcp2").2.
Proof.
  apply (proj1 (@export_exits_what_it_entered Demo.env demo_teardown demo_spreadsheet
                  "http://127.0.0.1:8002/mcp2")).
  split; [exact demo_calculator_url | reflexivity].
Defined.

(** * The example tools *)

(** ** The in-memory store of [tool/test_tool.py] *)

Module MemoryFacts.
Import TestTool.

Lemma get_set_eq key e d : get_item key (set_item key e d) = Some e.
Proof.
  induction d as [|[k e'] d IH]; simpl.
  - by rewrite String.eqb_refl.
  - destruct (String.eqb k key) eqn:Ek; simpl; by rewrite Ek.
Qed.

Lemma get_set_ne key key' e d :
  key <> key' -> get_item key (set_item key' e d) = get_item key d.
Proof.
  intros Hne. induction d as [|[k e'] d IH]; simpl.
  - destruct (String.eqb key' key) eqn:Ek; [|done].
    apply String.eqb_eq in Ek. congruence.
  - destruct (String.eqb k key') eqn:Ek; simpl.
    + apply String.eqb_eq in Ek as ->.
      destruct (String.eqb key' key) eqn:Ek'; [|done].
      apply String.eqb_eq in Ek'. congruence.
    + by rewrite IH.
Qed.

Lemma get_item_None key d : get_item key d = None <-> key ∉ keys d.
Proof.
  unfold keys. induction d as [|[k e] d IH]; simpl.
  - split; [intros _; apply not_elem_of_nil | done].
  - rewrite not_elem_of_cons. destruct (String.eqb k key) eqn:Ek.
    + apply String.eqb_eq in Ek as ->. split; [discriminate | by intros [? _]].
    + apply String.eqb_neq in Ek. rewrite IH. split; [by intros ? | by intros [_ ?]].
Qed.

Lemma keys_set key e d :
  keys (set_item key e d) =
  if bool_decide (key ∈ keys d) then keys d else (keys d ++ [key])%list.
Proof.
  unfold keys. induction d as [|[k e'] d IH].
  - rewrite bool_decide_eq_false_2 by apply not_elem_of_nil. done.
  - cbn [set_item]. destruct (String.eqb k key) eqn:Ek.
    + clear IH. apply String.eqb_eq in Ek as ->.
      rewrite bool_decide_eq_true_2 by (rewrite fmap_cons; by left). done.
    + apply String.eqb_neq in Ek. rewrite !fmap_cons, IH. cbn [fst].
      destruct (decide (key ∈ d.*1)) as [Hin|Hin].
      * rewrite !bool_decide_eq_true_2; [done | by right | done].
      * rewrite !bool_decide_eq_false_2; [done | | done].
        rewrite not_elem_of_cons. split; [congruence | done].
Qed.

Lemma keys_set_NoDup key e d : NoDup (keys d) -> NoDup (keys (set_item key e d)).
Proof.
  intros Hnd. rewrite keys_set. destruct (bool_decide (key ∈ keys d)) eqn:Ed; [done|].
  apply bool_decide_eq_false in Ed. apply NoDup_app. split; [done|].
  split; [|apply NoDup_singleton].
  intros x Hx ->%list_elem_of_singleton. done.
Qed.

Lemma first_saves_ext seen seen' calls :
  (forall x, x ∈ seen <-> x ∈ seen') -> first_saves seen calls = first_saves seen' calls.
Proof.
  revert seen seen'. induction calls as [|c calls IH]; intros seen seen' Hs; simpl; [done|].
  rewrite (bool_decide_ext _ _ (Hs c.1.2)).
  destruct (bool_decide (c.1.2 ∈ seen')); [by apply IH|].
  f_equal. apply IH. intros x. rewrite !elem_of_cons, Hs. done.
Qed.

Lemma keys_after_saves calls d :
  keys (after_saves calls d) = (keys d ++ first_saves (keys d) calls)%list.
Proof.
  revert d. induction calls as [|c calls IH]; intros d.
  - simpl. by rewrite app_nil_r.
  - change (after_saves (c :: calls) d)
      with (after_saves calls (save_to_memory c.1.1 c.1.2 c.2 d).2).
    rewrite IH. simpl. rewrite keys_set.
    destruct (bool_decide (c.1.2 ∈ keys d)) eqn:Ed; [done|].
    rewrite <- app_assoc. simpl. do 2 f_equal.
    apply first_saves_ext. intros x.
    rewrite elem_of_app, !elem_of_cons, elem_of_nil. tauto.
Qed.

Lemma NoDup_after_saves calls d : NoDup (keys d) -> NoDup (keys (after_saves calls d)).
Proof.
  revert d. induction calls as [|c calls IH]; intros d Hd; [done|].
  change (after_saves (c :: calls) d)
    with (after_saves calls (save_to_memory c.1.1 c.1.2 c.2 d).2).
  apply IH. simpl. by apply keys_set_NoDup.
Qed.

Lemma get_after_saves key calls d :
  get_item key (after_saves calls d) =
  match last_saved key calls with
  | Some e => Some e
  | None => get_item key d
  end.
Proof.
  revert d. induction calls as [|c calls IH]; intros d; [done|].
  change (after_saves (c :: calls) d)
    with (after_saves calls (save_to_memory c.1.1 c.1.2 c.2 d).2).
  rewrite IH. unfold last_saved. rewrite filter_cons.
  destruct (decide (c.1.2 = key)) as [Hk|Hk].
  - rewrite last_cons.
    destruct (last (filter (fun c0 : save_call => c0.1.2 = key) calls)) as [c'|]; [done|].
    simpl. rewrite <- Hk. apply get_set_eq.
  - destruct (last (filter (fun c0 : save_call => c0.1.2 = key) calls)) as [c'|]; [done|].
    simpl. by apply get_set_ne.
Qed.

End MemoryFacts.

Lemma first_saves_elem (k : string) seen calls :
  k ∈ TestTool.first_saves seen calls <->
  (k ∉ seen) /\ (exists c : TestTool.save_call, c ∈ calls /\ c.1.2 = k).
Proof.
  revert seen. induction calls as [|c calls IH]; intros seen; simpl.
  - rewrite elem_of_nil. split; [done|]. by intros (_ & c & ?%elem_of_nil & _).
  - case_bool_decide as Hin.
    + rewrite IH. split.
      * intros (Hk & c' & Hc' & Heq). split; [done|]. exists c'. split; [by right | done].
      * intros (Hk & c' & Hc' & Heq). split; [done|].
        apply elem_of_cons in Hc' as [->|Hc']; [by rewrite Heq in Hin|]. by exists c'.
    + rewrite elem_of_cons, IH, not_elem_of_cons. split.
      * intros [->|((Hne & Hk) & c' & Hc' & Heq)].
        -- split; [done|]. exists c. split; [by left | done].
        -- split; [done|]. exists c'. split; [by right | done].
      * intros (Hk & c' & Hc' & Heq).
        destruct (decide (k = c.1.2)) as [->|Hne]; [by left|]. right.
        split; [done|]. apply elem_of_cons in Hc' as [->|Hc']; [done|]. by exists c'.
Qed.

(** Saving under a key and retrieving it gives back the value and the time of
    that save, whatever the store held before; the reply of the save carries
    the same time; and what is stored under every other key is retrieved as
    before. *)
Theorem save_then_retrieve (now key val : string) (d : TestTool.memory) :
  (TestTool.save_to_memory now key val d).1 =
    TestTool.Saved key "데이터가 저장되었습니다" now /\
  TestTool.retrieve_from_memory key (TestTool.save_to_memory now key val d).2 =
    TestTool.Retrieved {| TestTool.value := val; TestTool.saved_at := now |} /\
  forall other e,
    other <> key ->
    (TestTool.retrieve_from_memory other (TestTool.save_to_memory now key val d).2 =
       TestTool.Retrieved e <->
     TestTool.retrieve_from_memory other d = TestTool.Retrieved e).
Proof.
  unfold TestTool.save_to_memory, TestTool.retrieve_from_memory. cbn [fst snd].
  rewrite MemoryFacts.get_set_eq. split; [reflexivity|]. split; [reflexivity|].
  intros other e Hne. rewrite MemoryFacts.get_set_ne by done.
  destruct (TestTool.get_item other d); [reflexivity|]. split; discriminate.
Qed.

Lemma save_then_retrieve_witness :
  (TestTool.retrieve_from_memory "a"
     (TestTool.save_to_memory "t2" "b" "2" [("a", {| TestTool.value := "1";
                                                      TestTool.saved_at := "t1" |})]).2 =
     TestTool.Retrieved {| TestTool.value := "1"; TestTool.saved_at := "t1" |}).
Proof.
  apply (proj2 (proj2 (save_then_retrieve "t2" "b" "2"
           [("a", {| TestTool.value := "1"; TestTool.saved_at := "t1" |})]))).
  - discriminate.
  - reflexivity.
Defined.

(** After any sequence of saves into the empty store, the keys are listed in
    the order of their first save, each once, with their number as the
    count. *)
Theorem keys_are_listed_in_first_save_order (calls : list TestTool.save_call)
    (now : string) :
  TestTool.list_memory_keys now (TestTool.after_saves calls []) =
    TestTool.Listed (TestTool.first_saves [] calls)
      (length (TestTool.first_saves [] calls)) now /\
  NoDup (TestTool.first_saves [] calls) /\
  forall k, k ∈ TestTool.first_saves [] calls <->
            exists c : TestTool.save_call, c ∈ calls /\ c.1.2 = k.
Proof.
  pose proof (MemoryFacts.keys_after_saves calls []) as Hk. simpl in Hk.
  split; [|split].
  - unfold TestTool.list_memory_keys. rewrite <- Hk.
    unfold TestTool.keys. by rewrite length_fmap.
  - rewrite <- Hk. apply MemoryFacts.NoDup_after_saves. apply NoDup_nil_2.
  - intros k. rewrite first_saves_elem. split; [by intros [_ ?]|].
    intros Hc. split; [apply not_elem_of_nil | done].
Qed.

(** After any sequence of saves into the empty store, retrieving a key gives
    the value and the time of the last save under that key, and for a key
    never saved the error with the stored keys. *)
Theorem retrieve_returns_last_save (key : string) (calls : list TestTool.save_call) :
  TestTool.retrieve_from_memory key (TestTool.after_saves calls []) =
  match TestTool.last_saved key calls with
  | Some e => TestTool.Retrieved e
  | None => TestTool.NotFound "키를 찾을 수 없습니다" (TestTool.first_saves [] calls)
  end.
Proof.
  unfold TestTool.retrieve_from_memory. rewrite MemoryFacts.get_after_saves.
  destruct (TestTool.last_saved key calls) as [e|]; [done|]. simpl.
  by rewrite (MemoryFacts.keys_after_saves calls []).
Qed.

(** ** The calculator of [tool/calculator_tool.py] *)

Lemma length_append (s t : string) :
  String.length (s ++ t) = String.length s + String.length t.
Proof.
  induction s as [|a s IH]; [done|]. rewrite append_cons. simpl. by rewrite IH.
Qed.

Lemma append_inj_r (s t u : string) : s ++ u = t ++ u -> s = t.
Proof.
  intros Heq.
  assert (Hl : String.length s = String.length t).
  { apply (f_equal String.length) in Heq. rewrite !length_append in Heq. lia. }
  revert t Heq Hl. induction s as [|a s IH]; intros [|b t] Heq Hl; try discriminate Hl.
  - done.
  - rewrite !append_cons in Heq. injection Heq as -> Heq. f_equal.
    apply IH; [done|]. simpl in Hl. lia.
Qed.

Lemma append_inj_l (u s t : string) : u ++ s = u ++ t -> s = t.
Proof.
  induction u as [|a u IH]; [done|]. rewrite !append_cons. intros [= Heq]. by apply IH.
Qed.

(** On the unbounded integers of the calculator, [subtract] undoes [add] and
    [add] undoes [subtract], [multiply] distributes over [add], and [greet]
    maps different names to different greetings. *)
Theorem calculator_tools_compose (a b c : Z) (n m : string) :
  Calculator.subtract (Calculator.add a b) b = a /\
  Calculator.add (Calculator.subtract a b) b = a /\
  Calculator.multiply a (Calculator.add b c) =
    Calculator.add (Calculator.multiply a b) (Calculator.multiply a c) /\
  (Calculator.greet n = Calculator.greet m -> n = m).
Proof.
  unfold Calculator.subtract, Calculator.add, Calculator.multiply, Calculator.greet.
  split; [lia|]. split; [lia|]. split; [lia|].
  intros Heq. apply (append_inj_r _ _ "!"). by apply (append_inj_l "Hello, ").
Qed.

Lemma calculator_tools_compose_witness : "World" = "World".
Proof.
  exact (proj2 (proj2 (proj2 (calculator_tools_compose 2 3 4 "World" "World"))) eq_refl).
Defined.

(** * Where the cached tools come from *)

Section CacheSound.
Context `{Env}.

Lemma multi_load_tools_cache_entry name tools st k cache' n td :
  Multi.tools_cache (Multi.load_tools name tools st) !! k = Some cache' ->
  cache' !! n = Some td ->
  (exists cache, Multi.tools_cache st !! k = Some cache /\ cache !! n = Some td) \/
  (k = name /\ exists tool, tool ∈ tools /\ Mcp.name tool = Some n /\ td = data_of n tool).
Proof.
  revert st. induction tools as [|tool tools IH]; intros st; simpl.
  { intros Hk Hn. left. by exists cache'. }
  destruct (Mcp.name tool) as [tn|] eqn:En; [|intros Hk Hn; left; by exists cache'].
  destruct (Multi.tools_cache st !! name) as [cache|] eqn:Ec;
    [|intros Hk Hn; left; by exists cache'].
  assert (Hstep : forall cache1,
            <[name := <[tn := data_of tn tool]> cache]> (Multi.tools_cache st) !! k
              = Some cache1 ->
            cache1 !! n = Some td ->
            (exists cache0, Multi.tools_cache st !! k = Some cache0 /\ cache0 !! n = Some td) \/
            (k = name /\ exists tool0, tool0 ∈ tool :: tools /\
                          Mcp.name tool0 = Some n /\ td = data_of n tool0)).
  { intros cache1 Hk Hn. destruct (decide (k = name)) as [->|Hne].
    - rewrite lookup_insert_eq in Hk. injection Hk as <-.
      destruct (decide (n = tn)) as [->|Hn'].
      + rewrite lookup_insert_eq in Hn. injection Hn as <-.
        right. split; [done|]. exists tool. split; [by left | done].
      + rewrite lookup_insert_ne in Hn by done. left. by exists cache.
    - rewrite lookup_insert_ne in Hk by done. left. by exists cache1. }
  destruct (Multi.create_dynamic_endpoint _ _ _) as [r|]; [|apply Hstep].
  intros Hk Hn. destruct (IH _ Hk Hn) as [(cache1 & Hk1 & Hn1)|(-> & tool0 & Hin & Hn0 & Htd)].
  - exact (Hstep cache1 Hk1 Hn1).
  - right. split; [done|]. exists tool0. split; [by right | done].
Qed.

Lemma multi_load_server_cache_entry st s k cache' n td :
  Multi.tools_cache (Multi.load_server st s) !! k = Some cache' ->
  cache' !! n = Some td ->
  (exists cache, Multi.tools_cache st !! k = Some cache /\ cache !! n = Some td) \/
  (k = Multi.server_name s /\
   exists c, new_client (Multi.server_url s) = Some c /\ discovered_by c n td).
Proof.
  unfold Multi.load_server.
  destruct (new_client (Multi.server_url s)) as [c|] eqn:Ec;
    [|intros Hk Hn; left; by exists cache'].
  destruct (Mcp.aenter c) eqn:Ea; [|intros Hk Hn; left; by exists cache'].
  destruct (Mcp.list_tools_mcp c) as [tools|] eqn:El;
    [|intros Hk Hn; left; by exists cache'].
  intros Hk Hn.
  destruct (multi_load_tools_cache_entry _ _ _ _ _ _ _ Hk Hn)
    as [(cache & Hk1 & Hn1)|(-> & tool & Hin & Hname & Htd)].
  - simpl in Hk1. destruct (decide (k = Multi.server_name s)) as [->|Hne].
    + rewrite lookup_insert_eq in Hk1. injection Hk1 as <-. by rewrite lookup_empty in Hn1.
    + rewrite lookup_insert_ne in Hk1 by done. left. by exists cache.
  - right. split; [done|]. exists c. split; [done|]. by exists tools, tool.
Qed.

Lemma multi_load_servers_cache_entry servers st k cache' n td :
  Multi.tools_cache (Multi.load_servers servers st) !! k = Some cache' ->
  cache' !! n = Some td ->
  (exists cache, Multi.tools_cache st !! k = Some cache /\ cache !! n = Some td) \/
  (exists s c, s ∈ servers /\ Multi.server_name s = k /\
               new_client (Multi.server_url s) = Some c /\ discovered_by c n td).
Proof.
  revert st. induction servers as [|s servers IH]; intros st.
  { intros Hk Hn. left. by exists cache'. }
  change (Multi.load_servers (s :: servers) st)
    with (Multi.load_servers servers (Multi.load_server st s)).
  intros Hk Hn. destruct (IH _ Hk Hn) as [(cache & Hk1 & Hn1)|(s' & c & Hin & Hs & Hc & Hd)].
  - destruct (multi_load_server_cache_entry _ _ _ _ _ _ Hk1 Hn1)
      as [Hold|(-> & c & Hc & Hd)]; [by left|].
    right. exists s, c. split; [by left | done].
  - right. exists s', c. split; [by right | done].
Qed.

Lemma single_load_tools_cache_entry tools st n td :
  Single.tools_cache (Single.load_tools tools st) !! n = Some td ->
  Single.tools_cache st !! n = Some td \/
  (exists tool, tool ∈ tools /\ Mcp.name tool = Some n /\ td = data_of n tool).
Proof.
  revert st. induction tools as [|tool tools IH]; intros st; simpl; [by left|].
  destruct (Mcp.name tool) as [tn|] eqn:En; [|by left].
  assert (Hstep : <[tn := data_of tn tool]> (Single.tools_cache st) !! n = Some td ->
            Single.tools_cache st !! n = Some td \/
            (exists tool0, tool0 ∈ tool :: tools /\
                           Mcp.name tool0 = Some n /\ td = data_of n tool0)).
  { destruct (decide (n = tn)) as [->|Hne].
    - rewrite lookup_insert_eq. intros [= <-]. right. exists tool. split; [by left | done].
    - rewrite lookup_insert_ne by done. by left. }
  destruct (Single.create_dynamic_endpoint _ _) as [r|]; [|apply Hstep].
  intros [Hn|(tool0 & Hin & Hn0 & Htd)]%IH.
  - exact (Hstep Hn).
  - right. exists tool0. split; [by right | done].
Qed.

End CacheSound.

(** Whatever the root listing shows after startup was discovered: a tool
    listed under a source is a tool, of that name, of the discovery response
    of a connection that was entered for a configured server of that source
    name, and the listed title and description are that tool's. *)
Theorem listed_tools_were_discovered `{Env} :
  (forall servers e t,
     e ∈ Multi.root (Multi.load_servers servers Multi.initial) ->
     t ∈ Multi.entry_tools e ->
     exists s c tools tool,
       s ∈ servers /\ Multi.server_name s = Multi.entry_server e /\
       new_client (Multi.server_url s) = Some c /\ Mcp.aenter c = true /\
       Mcp.list_tools_mcp c = Some tools /\ tool ∈ tools /\
       Mcp.name tool = Some (entry_name t) /\
       entry_title t = Mcp.title tool /\ entry_description t = Mcp.description tool) /\
  (forall t,
     t ∈ Single.available_tools (Single.root (Single.startup_event Single.initial)) ->
     exists c tools tool,
       new_client Single.MCP_URL = Some c /\ Mcp.aenter c = true /\
       Mcp.list_tools_mcp c = Some tools /\ tool ∈ tools /\
       Mcp.name tool = Some (entry_name t) /\
       entry_title t = Mcp.title tool /\ entry_description t = Mcp.description tool).
Proof.
  split.
  - intros servers e t He Ht. unfold Multi.root in He.
    apply list_elem_of_fmap in He as ([k cache] & -> & Hk).
    apply elem_of_map_to_list in Hk. cbn in Ht |- *.
    apply list_elem_of_fmap in Ht as ([n td] & -> & Hn).
    apply elem_of_map_to_list in Hn. cbn.
    destruct (multi_load_servers_cache_entry _ _ _ _ _ _ Hk Hn)
      as [(cache0 & Hk0 & _)|(s & c & Hin & Hs & Hc & tools & tool & Ha & Hl & Ht & Hname & ->)].
    + simpl in Hk0. by rewrite lookup_empty in Hk0.
    + by exists s, c, tools, tool.
  - intros t Ht. unfold Single.root in Ht. cbn in Ht.
    apply list_elem_of_fmap in Ht as ([n td] & -> & Hn).
    apply elem_of_map_to_list in Hn. cbn.
    unfold Single.startup_event in Hn.
    destruct (new_client Single.MCP_URL) as [c|] eqn:Ec;
      [|simpl in Hn; by rewrite lookup_empty in Hn].
    destruct (Mcp.aenter c) eqn:Ea; [|simpl in Hn; by rewrite lookup_empty in Hn].
    destruct (Mcp.list_tools_mcp c) as [tools|] eqn:El;
      [|simpl in Hn; by rewrite lookup_empty in Hn].
    apply single_load_tools_cache_entry in Hn as [Hn|(tool & Hin & Hname & ->)].
    + simpl in Hn. by rewrite lookup_empty in Hn.
    + by exists c, tools, tool.
Qed.

Lemma demo_single_lists_add :
  exists t,
    t ∈ Single.available_tools
          (Single.root (@Single.startup_event Demo.env Single.initial)) /\
    entry_name t = "add".
Proof.
  destruct (find (fun t => String.eqb (entry_name t) "add")
              (Single.available_tools
                 (Single.root (@Single.startup_event Demo.env Single.initial))))
    as [t|] eqn:E.
  - exists t. apply find_some in E as [Hin Hn].
    split; [by apply list_elem_of_In|]. by apply String.eqb_eq in Hn.
  - vm_compute in E. discriminate E.
Qed.

Lemma listed_tools_were_discovered_witness :
  exists t c tools tool,
    entry_name t = "add" /\
    @new_client Demo.env Single.MCP_URL = Some c /\ Mcp.aenter c = true /\
    Mcp.list_tools_mcp c = Some tools /\ tool ∈ tools /\
    Mcp.name tool = Some (entry_name t) /\
    entry_title t = Mcp.title tool /\ entry_description t = Mcp.description tool.
Proof.
  destruct demo_single_lists_add as (t & Hin & Hn).
  destruct (proj2 (@listed_tools_were_discovered Demo.env) t Hin)
    as (c & tools & tool & Hd).
  exists t, c, tools, tool. split; [exact Hn | exact Hd].
Defined.
